(** * Covid_Simulation.py: a shallow embedding and its verified properties

    The script simulates the spread of a virus through two schools and the
    rest of a town, day by day.  This file embeds its classes ([person],
    [classroom], [school]), the construction of the town, the loop over the
    days with its seeding step, and the end-of-simulation tallies, and
    proves properties of them.

    Modelling conventions.
    - Python integers are unbounded: they are [Z].  Counts that come from
      [range] or [len] are [nat].
    - [None]-able fields are [option].
    - Objects are mutated in place by the script; here every method takes
      the object and returns the updated object.  No person object is
      shared between two containers, so no aliasing has to be modelled.
    - Module-level constants are read through the [Settings] class; the
      values of the script are [script_settings].
    - A Python float is a binary64 number.  A finite float is modelled by
      the rational it denotes, and an operation on floats by the exact
      operation followed by [binary64], the rounding to the nearest
      binary64 number, ties to even.  Infinities and NaN are not modelled:
      the only float operations of the script are a comparison and the
      quotient of a list length (below 2^63, so that its conversion cannot
      overflow) by [students_per_family], which is at least 1 there.
    - [print] appends a line to [stdout]; [random] draws from a stream of
      naturals that stands for the generator's state; exceptions abort the
      computation ([Raised]). *)

From Stdlib Require Import ZArith QArith Qround Lia String Ascii DecimalString.
From stdpp Require Import base tactics option list gmap strings.

Local Open Scope Z_scope.
Local Open Scope string_scope.

(** ** Module-level constants *)

Class Settings := {
  population : Z;
  test_lag : Z;
  first_contagious_day : Z;
  last_contagious_day : Z;
  first_positive_test_day : Z;
  last_positive_test_day : Z;
  students_per_family : Q;
  S1_class_size : nat;
  S1_teachers : nat;
  S1_classes_in_school : nat;
  S2_class_size : nat;
  S2_teachers : nat;
  S2_classes_in_school : nat;
  N_days : Z
}.

Definition script_settings : Settings := {|
  population := 30054;
  test_lag := 1;
  first_contagious_day := 3;
  last_contagious_day := 13;
  first_positive_test_day := 1;
  last_positive_test_day := 16;
  students_per_family := (5 # 4)%Q;
  S1_class_size := 14;
  S1_teachers := 2;
  S1_classes_in_school := 10;
  S2_class_size := 10;
  S2_teachers := 2;
  S2_classes_in_school := 3;
  N_days := 90
|}.

(** ** Strings *)

(** [str(n)] for an integer. *)
Definition str (n : Z) : string := NilZero.string_of_int (Z.to_int n).

(** [a in b] for two strings: [a] occurs in [b] as a substring. *)
Fixpoint str_in (a b : string) : bool :=
  String.prefix a b ||
  match b with
  | EmptyString => false
  | String _ b' => str_in a b'
  end.

(** ** The effects of the script *)

Inductive exn := ValueError | IndexError.

Record world := {
  random_source : nat → nat;
  stdout : list string
}.

Inductive outcome (A : Type) :=
| Raised (e : exn)
| Returned (a : A) (w : world).
Arguments Raised {A} e.
Arguments Returned {A} a w.

Definition script (A : Type) : Type := world → outcome A.

#[export] Instance script_ret : MRet script := λ A a w, Returned a w.
#[export] Instance script_bind : MBind script := λ A B f m w,
  match m w with
  | Raised e => Raised e
  | Returned a w' => f a w'
  end.

Definition raise {A} (e : exn) : script A := λ _, Raised e.

Definition print (line : string) : script unit := λ w,
  Returned tt {| random_source := random_source w;
                 stdout := stdout w ++ [line] |}.

(** One draw of the generator: a number below [n], for [0 < n]. *)
Definition randbelow (n : nat) : script nat := λ w,
  Returned (random_source w 0%nat mod n)%nat
           {| random_source := λ k, random_source w (S k);
              stdout := stdout w |}.

(** [random.randint(a, b)]: raises [ValueError] on an empty range. *)
Definition randint (a b : Z) : script Z :=
  if decide (b < a) then raise ValueError
  else r ← randbelow (Z.to_nat (b - a + 1)); mret (a + Z.of_nat r).

(** ** class person *)

Record person := {
  name : string;
  age : Z;
  days_with_virus : Z;
  day_infected : Z;
  family_unit : option Z
}.

Definition person_init (name : string) (age : Z) : person :=
  {| name := name; age := age; days_with_virus := -1;
     day_infected := 1000000; family_unit := None |}.

Definition assign_to_family (self : person) (fam : Z) : person :=
  {| name := name self; age := age self;
     days_with_virus := days_with_virus self;
     day_infected := day_infected self; family_unit := Some fam |}.

Definition is_sick (self : person) : bool :=
  if decide (days_with_virus self > -1) then true else false.

Section Person.
Context `{Settings}.

Definition tests_positive (self : person) : bool :=
  if decide (days_with_virus self > first_positive_test_day ∧
             days_with_virus self <= last_positive_test_day)
  then true else false.

Definition is_contagious (self : person) : bool :=
  if decide (days_with_virus self >= first_contagious_day ∧
             days_with_virus self < last_contagious_day)
  then true else false.
End Person.

Definition sicken (self : person) (day : Z) : person :=
  if decide (days_with_virus self = -1) then
    {| name := name self; age := age self; days_with_virus := 0;
       day_infected := day; family_unit := family_unit self |}
  else self.

Definition update_days_sick (self : person) : person :=
  if decide (days_with_virus self ≠ -1) then
    {| name := name self; age := age self;
       days_with_virus := days_with_virus self + 1;
       day_infected := day_infected self; family_unit := family_unit self |}
  else self.

(** ** class classroom *)

Record classroom := {
  number : Z;
  students : list person;
  teachers : list person;
  earliest_positive_test_day : option Z
}.

Definition with_students (self : classroom) (ss : list person) : classroom :=
  {| number := number self; students := ss; teachers := teachers self;
     earliest_positive_test_day := earliest_positive_test_day self |}.

Definition classroom_init (number : Z) (class_size : nat) (age : Z)
    (num_teachers : nat) : classroom :=
  {| number := number;
     students :=
       (λ i, person_init ("student_" ++ str number ++ "_" ++ str (Z.of_nat i))
                         age) <$> seq 0 class_size;
     teachers :=
       (λ i, person_init ("teacher_" ++ str number ++ "_" ++ str (Z.of_nat i))
                         30) <$> seq 0 num_teachers;
     earliest_positive_test_day := None |}.

(** The loop of [classroom.assign_to_families]: every student takes the head
    of the list, [pop(0)], which raises [IndexError] on an empty list. *)
Fixpoint assign_students (ss : list person) (fam_assignments : list Z)
    : script (list person) :=
  match ss with
  | [] => mret []
  | stdt :: ss' =>
      match fam_assignments with
      | [] => raise IndexError
      | fam :: rest =>
          ss'' ← assign_students ss' rest;
          mret (assign_to_family stdt fam :: ss'')
      end
  end.

Definition classroom_assign_to_families (self : classroom)
    (fam_assignments : list Z) : script classroom :=
  ss ← assign_students (students self) fam_assignments;
  mret (with_students self ss).

Section Classroom.
Context `{Settings}.

Definition any_contagious_cases_in_classroom (self : classroom) : bool :=
  let any_cases := false in
  let any_cases :=
    foldl (λ any stdt, if is_contagious stdt then true else any)
          any_cases (students self) in
  let any_cases :=
    foldl (λ any teach, if is_contagious teach then true else any)
          any_cases (teachers self) in
  any_cases.

Definition num_contagious_students_in_classroom (self : classroom) : Z :=
  foldl (λ num stdt, if is_contagious stdt then num + 1 else num)
        0 (students self).

Definition sicken_all (self : classroom) (day : Z) : classroom :=
  {| number := number self;
     students := (λ stdt, sicken stdt day) <$> students self;
     teachers := (λ teach, sicken teach day) <$> teachers self;
     earliest_positive_test_day := earliest_positive_test_day self |}.

Definition classroom_update_days_sick (self : classroom) : classroom :=
  {| number := number self;
     students := update_days_sick <$> students self;
     teachers := update_days_sick <$> teachers self;
     earliest_positive_test_day := earliest_positive_test_day self |}.

(** One iteration of the loop of [classroom.test], on the field it
    writes. *)
Definition test_student (day : Z) (earliest : option Z) (stdt : person)
    : option Z :=
  if tests_positive stdt then
    match earliest with
    | None => Some day
    | Some _ => earliest
    end
  else earliest.

Definition classroom_test (self : classroom) (day : Z) : classroom :=
  {| number := number self;
     students := students self;
     teachers := teachers self;
     earliest_positive_test_day :=
       foldl (test_student day) (earliest_positive_test_day self)
             (students self) |}.

Definition offline (self : classroom) (day : Z) : bool :=
  match earliest_positive_test_day self with
  | None => false
  | Some t => if decide (day > t + test_lag) then true else false
  end.
End Classroom.

(** ** class school *)

Record school := {
  school_name : string;
  classrooms : list classroom;
  class_size : nat
}.

Definition with_classrooms (self : school) (cs : list classroom) : school :=
  {| school_name := school_name self; classrooms := cs;
     class_size := class_size self |}.

(** The list comprehension of [school.__init__]; [ages_list[i]] raises
    [IndexError] past the end of the list. *)
Fixpoint init_classrooms (indices : list nat) (class_size : nat)
    (ages_list : list Z) (teachers_per_class : nat)
    : script (list classroom) :=
  match indices with
  | [] => mret []
  | i :: rest =>
      match ages_list !! i with
      | None => raise IndexError
      | Some a =>
          cs ← init_classrooms rest class_size ages_list teachers_per_class;
          mret (classroom_init (Z.of_nat i + 1) class_size a
                               teachers_per_class :: cs)
      end
  end.

Definition school_init (name : string) (num_classrooms class_size : nat)
    (ages_list : list Z) (teachers_per_class : nat) : script school :=
  cs ← init_classrooms (seq 0 num_classrooms) class_size ages_list
                       teachers_per_class;
  mret {| school_name := name; classrooms := cs; class_size := class_size |}.

Definition total_people (self : school) : nat :=
  foldl (λ total clrm,
           (total + (length (students clrm) + length (teachers clrm)))%nat)
        0%nat (classrooms self).

Definition total_students (self : school) : nat :=
  foldl (λ total clrm, (total + length (students clrm))%nat)
        0%nat (classrooms self).

(** The set built by [school.actual_students_per_family]. *)
Definition family_set (self : school) : gset (option Z) :=
  foldl (λ fs clrm, foldl (λ fs stdt, fs ∪ {[ family_unit stdt ]})
                          fs (students clrm))
        ∅ (classrooms self).

Section School.
Context `{Settings}.

Definition school_test (self : school) (day : Z) : school :=
  with_classrooms self ((λ clrm, classroom_test clrm day) <$> classrooms self).

Definition total_students_contagious (self : school) : Z :=
  foldl (λ total clrm, total + num_contagious_students_in_classroom clrm)
        0 (classrooms self).

Definition school_update_days_sick (self : school) : school :=
  with_classrooms self (classroom_update_days_sick <$> classrooms self).

(** The first loop of [school.spread_virus], within classrooms. *)
Definition spread_in_classroom (day : Z) (clrm : classroom) : classroom :=
  if negb (offline clrm day) then
    if any_contagious_cases_in_classroom clrm then sicken_all clrm day
    else clrm
  else clrm.

(** The second loop: the family units of the contagious students. *)
Definition contagious_families (cs : list classroom) : gset (option Z) :=
  foldl (λ fams clrm,
           foldl (λ fams stdt,
                    if is_contagious stdt
                    then fams ∪ {[ family_unit stdt ]} else fams)
                 fams (students clrm))
        ∅ cs.

(** The third loop: every student of a contagious family is sickened. *)
Definition spread_in_families (day : Z) (fams : gset (option Z))
    (clrm : classroom) : classroom :=
  with_students clrm
    ((λ stdt, if decide (family_unit stdt ∈ fams) then sicken stdt day
              else stdt) <$> students clrm).

Definition spread_virus (self : school) (day : Z) : school :=
  let cs :=
    if negb (bool_decide (day `mod` 7 ∈ [5; 6]))
    then spread_in_classroom day <$> classrooms self
    else classrooms self in
  let fams := contagious_families cs in
  with_classrooms self (spread_in_families day fams <$> cs).
End School.

(** *** school.sicken_xth_person *)

(** The state of the search for the [x]th person: either the person was
    reached and the method returned [ret] (with the container updated), or
    the container was passed and the counter [p] has the given value. *)
Inductive scan (A : Type) :=
| Hit (ret : bool) (updated : A)
| Miss (p : Z).
Arguments Hit {A} ret updated.
Arguments Miss {A} p.

(** The body shared by the loop over students and the loop over teachers.
    [exclude_list] is the string the simulation loop passes, so that
    [name in exclude_list] is a substring test. *)
Fixpoint scan_people (ps : list person) (p x : Z) (exclude_list : string)
    (day : Z) : scan (list person) :=
  match ps with
  | [] => Miss p
  | q :: ps' =>
      let p := p + 1 in
      if decide (p = x) then
        if str_in (name q) exclude_list then Hit false (q :: ps')
        else if is_sick q then Hit false (q :: ps')
        else Hit true (sicken q day :: ps')
      else
        match scan_people ps' p x exclude_list day with
        | Hit ret ps'' => Hit ret (q :: ps'')
        | Miss p' => Miss p'
        end
  end.

Fixpoint scan_classrooms (cs : list classroom) (p x : Z)
    (exclude_list : string) (day : Z) : scan (list classroom) :=
  match cs with
  | [] => Miss p
  | clrm :: cs' =>
      match scan_people (students clrm) p x exclude_list day with
      | Hit ret ss => Hit ret (with_students clrm ss :: cs')
      | Miss p =>
          match scan_people (teachers clrm) p x exclude_list day with
          | Hit ret ts =>
              Hit ret ({| number := number clrm; students := students clrm;
                          teachers := ts;
                          earliest_positive_test_day :=
                            earliest_positive_test_day clrm |} :: cs')
          | Miss p =>
              match scan_classrooms cs' p x exclude_list day with
              | Hit ret cs'' => Hit ret (clrm :: cs'')
              | Miss p' => Miss p'
              end
          end
      end
  end.

(** The method returns [True], [False], or falls off its end after the
    error message and returns [None]. *)
Definition sicken_xth_person (self : school) (x : Z) (exclude_list : string)
    (day : Z) : script (option bool * school) :=
  match scan_classrooms (classrooms self) (-1) x exclude_list day with
  | Hit ret cs => mret (Some ret, with_classrooms self cs)
  | Miss _ =>
      _ ← print ("Error - there are not " ++ str x
                 ++ " applicable people in school");
      mret (None, self)
  end.

(** *** school.assign_to_random_families *)

(** [x[i], x[j] = x[j], x[i]] *)
Definition swap (x : list Z) (i j : nat) : list Z :=
  match x !! i, x !! j with
  | Some a, Some b => <[j := a]> (<[i := b]> x)
  | _, _ => x
  end.

(** [random.shuffle]: for [i] from [len(x) - 1] down to [1], swap [x[i]]
    with [x[j]] for a random [j <= i]. *)
Fixpoint shuffle_from (i : nat) (x : list Z) : script (list Z) :=
  match i with
  | O => mret x
  | S i' => j ← randbelow (i + 1); shuffle_from i' (swap x i j)
  end.

Definition shuffle (x : list Z) : script (list Z) :=
  shuffle_from (length x - 1) x.

(** [for i in range(n): fam_assignments.append(random.randint(0, num_families-1))] *)
Fixpoint append_random (n : nat) (num_families : Z) (fam_assignments : list Z)
    : script (list Z) :=
  match n with
  | O => mret fam_assignments
  | S n' =>
      r ← randint 0 (num_families - 1);
      append_random n' num_families (fam_assignments ++ [r])
  end.

(** The last loop: each classroom is handed a copy of the first
    [class_size] entries, which are then deleted from the list. *)
Fixpoint assign_classrooms (cs : list classroom) (fam_assignments : list Z)
    (class_size : nat) : script (list classroom) :=
  match cs with
  | [] => mret []
  | clrm :: cs' =>
      clrm' ← classroom_assign_to_families clrm
                 (take class_size fam_assignments);
      cs'' ← assign_classrooms cs' (drop class_size fam_assignments)
                class_size;
      mret (clrm' :: cs'')
  end.

(** ** Floats *)

(** The integer nearest to [a / b], for [0 < b]; a tie goes to the even
    one. *)
Definition round_half_even (a b : Z) : Z :=
  let q := a / b in
  let r := a `mod` b in
  if decide (2 * r < b) then q
  else if decide (b < 2 * r) then q + 1
  else if Z.even q then q else q + 1.

(** The exponent of [a / b], for [0 < a] and [0 < b]: the [e] with
    [2^e <= a / b < 2^(e+1)]. *)
Definition floor_log2 (a b : Z) : Z :=
  let e0 := Z.log2 a - Z.log2 b in
  if decide (0 <= e0) then
    if decide (2 ^ e0 * b <= a) then e0 else e0 - 1
  else
    if decide (b <= 2 ^ (- e0) * a) then e0 else e0 - 1.

(** Rounding of [a / b], positive, to 53 significant bits, on the grid of
    the multiples of [2^e]; the grid is never finer than [2^-1074], that of
    the subnormal numbers. *)
Definition binary64_pos (a b : Z) : Q :=
  let e := Z.max (floor_log2 a b - 52) (-1074) in
  if decide (0 <= e) then
    inject_Z (round_half_even a (b * 2 ^ e) * 2 ^ e)
  else
    Qmake (round_half_even (a * 2 ^ (- e)) b) (Z.to_pos (2 ^ (- e))).

(** The binary64 number nearest to [x] (below the overflow threshold). *)
Definition binary64 (x : Q) : Q :=
  match Qnum x with
  | Z0 => 0%Q
  | Zpos p => binary64_pos (Zpos p) (Zpos (Qden x))
  | Zneg p => (- binary64_pos (Zpos p) (Zpos (Qden x)))%Q
  end.

(** The conversion of an [int] operand to [float], and [x / y] on floats,
    for [y] other than 0. *)
Definition float_of_int (n : Z) : Q := binary64 (inject_Z n).

Definition float_div (x y : Q) : Q := binary64 (x / y).

Section Families.
Context `{Settings}.

(** [math.floor(total / students_per_family)], with the quotient of
    floats. *)
Definition num_families_of (total : nat) : Z :=
  Qfloor (float_div (float_of_int (Z.of_nat total)) students_per_family).

Definition assign_to_random_families (self : school) : script school :=
  if Qlt_le_dec students_per_family 1 then
    _ ← print "Can't have fewer than 1 student per family.";
    mret self
  else
    let num_families := num_families_of (total_students self) in
    let fam_assignments := seqZ 0 num_families in
    fam_assignments ←
      append_random (Z.to_nat (Z.of_nat (total_students self) - num_families))
                    num_families fam_assignments;
    fam_assignments ← shuffle fam_assignments;
    cs ← assign_classrooms (classrooms self) fam_assignments
                           (class_size self);
    mret (with_classrooms self cs).
End Families.

(** ** The simulation loop *)

(** The population of one simulation. *)
Record town := {
  other_residents : list person;
  S1_school : school;
  S2_school : school
}.

(** The body of [for i in new_list], for one sampled index [i] of
    [range(population)].  [already_sick] is assigned and never read. *)
Definition seed (day : Z) (i : nat) (t : town) : script town :=
  if decide (i < length (other_residents t))%nat then
    mret {| other_residents :=
              alter (λ r, sicken r day) i (other_residents t);
            S1_school := S1_school t; S2_school := S2_school t |}
  else if decide (i < length (other_residents t)
                      + total_people (S1_school t))%nat then
    '(_, s1) ← sicken_xth_person (S1_school t)
                 (Z.of_nat i - Z.of_nat (length (other_residents t)))
                 "student_1_1" day;
    mret {| other_residents := other_residents t;
            S1_school := s1; S2_school := S2_school t |}
  else
    '(_, s2) ← sicken_xth_person (S2_school t)
                 (Z.of_nat i - Z.of_nat (length (other_residents t))
                  - Z.of_nat (total_people (S1_school t)))
                 "student_1_1" day;
    mret {| other_residents := other_residents t;
            S1_school := S1_school t; S2_school := s2 |}.

Fixpoint seed_all (day : Z) (new_list : list nat) (t : town) : script town :=
  match new_list with
  | [] => mret t
  | i :: rest => t' ← seed day i t; seed_all day rest t'
  end.

(** [school.classrooms[0]] and [school.classrooms[0].students[0]] *)
Definition classroom_0 (s : school) : script classroom :=
  match classrooms s !! 0%nat with
  | Some clrm => mret clrm
  | None => raise IndexError
  end.

Definition student_0_0 (s : school) : script person :=
  clrm ← classroom_0 s;
  match students clrm !! 0%nat with
  | Some stdt => mret stdt
  | None => raise IndexError
  end.

(** ** The tallies over all simulations *)

Record tallies := {
  S1_infections : Z;
  S2_infections : Z;
  S1_infections_no_warning : Z;
  S1_infections_some_warning : Z;
  S1_infections_good_warning : Z;
  Agg_infections : Z;
  Agg_infections_no_warning : Z;
  Agg_infections_some_warning : Z;
  Agg_infections_good_warning : Z
}.

Definition with_S1_infections (tl : tallies) (n : Z) : tallies :=
  {| S1_infections := n;
     S2_infections := S2_infections tl;
     S1_infections_no_warning := S1_infections_no_warning tl;
     S1_infections_some_warning := S1_infections_some_warning tl;
     S1_infections_good_warning := S1_infections_good_warning tl;
     Agg_infections := Agg_infections tl;
     Agg_infections_no_warning := Agg_infections_no_warning tl;
     Agg_infections_some_warning := Agg_infections_some_warning tl;
     Agg_infections_good_warning := Agg_infections_good_warning tl |}.

Definition with_S2_infections (tl : tallies) (n : Z) : tallies :=
  {| S1_infections := S1_infections tl;
     S2_infections := n;
     S1_infections_no_warning := S1_infections_no_warning tl;
     S1_infections_some_warning := S1_infections_some_warning tl;
     S1_infections_good_warning := S1_infections_good_warning tl;
     Agg_infections := Agg_infections tl;
     Agg_infections_no_warning := Agg_infections_no_warning tl;
     Agg_infections_some_warning := Agg_infections_some_warning tl;
     Agg_infections_good_warning := Agg_infections_good_warning tl |}.

Definition with_S1_warnings (tl : tallies) (no some good : Z) : tallies :=
  {| S1_infections := S1_infections tl;
     S2_infections := S2_infections tl;
     S1_infections_no_warning := no;
     S1_infections_some_warning := some;
     S1_infections_good_warning := good;
     Agg_infections := Agg_infections tl;
     Agg_infections_no_warning := Agg_infections_no_warning tl;
     Agg_infections_some_warning := Agg_infections_some_warning tl;
     Agg_infections_good_warning := Agg_infections_good_warning tl |}.

Definition with_Agg_infections (tl : tallies) (n : Z) : tallies :=
  {| S1_infections := S1_infections tl;
     S2_infections := S2_infections tl;
     S1_infections_no_warning := S1_infections_no_warning tl;
     S1_infections_some_warning := S1_infections_some_warning tl;
     S1_infections_good_warning := S1_infections_good_warning tl;
     Agg_infections := n;
     Agg_infections_no_warning := Agg_infections_no_warning tl;
     Agg_infections_some_warning := Agg_infections_some_warning tl;
     Agg_infections_good_warning := Agg_infections_good_warning tl |}.

(** The three aggregate warning counters, in the order in which
    [determine_agg_warnings] takes and returns them. *)
Definition Agg_warnings_of (tl : tallies) : Z * Z * Z :=
  (Agg_infections_no_warning tl, Agg_infections_some_warning tl,
   Agg_infections_good_warning tl).

(** The assignment of the triple returned by [determine_agg_warnings]. *)
Definition with_Agg_warnings (tl : tallies) (r : Z * Z * Z) : tallies :=
  {| S1_infections := S1_infections tl;
     S2_infections := S2_infections tl;
     S1_infections_no_warning := S1_infections_no_warning tl;
     S1_infections_some_warning := S1_infections_some_warning tl;
     S1_infections_good_warning := S1_infections_good_warning tl;
     Agg_infections := Agg_infections tl;
     Agg_infections_no_warning := r.1.1;
     Agg_infections_some_warning := r.1.2;
     Agg_infections_good_warning := r.2 |}.

Section Results.
Context `{Settings}.

Definition determine_agg_warnings (earliest_positive_test_day : option Z)
    (day_contagious : Z)
    (Agg_infections_no_warning Agg_infections_some_warning
     Agg_infections_good_warning : Z) : Z * Z * Z :=
  match earliest_positive_test_day with
  | None =>
      (Agg_infections_no_warning + 1, Agg_infections_some_warning,
       Agg_infections_good_warning)
  | Some t =>
      if decide (t + test_lag >= day_contagious + first_contagious_day) then
        (Agg_infections_no_warning + 1, Agg_infections_some_warning,
         Agg_infections_good_warning)
      else if decide (t + test_lag >= day_contagious) then
        (Agg_infections_no_warning, Agg_infections_some_warning + 1,
         Agg_infections_good_warning)
      else
        (Agg_infections_no_warning, Agg_infections_some_warning,
         Agg_infections_good_warning + 1)
  end.

(** The branches written out in the simulation loop for school 1, on the
    counters of school 1. *)
Definition S1_warnings (earliest : option Z) (day_contagious : Z)
    (tl : tallies) : tallies :=
  match earliest with
  | None =>
      with_S1_warnings tl (S1_infections_no_warning tl + 1)
        (S1_infections_some_warning tl) (S1_infections_good_warning tl)
  | Some t =>
      if decide (t + test_lag >= day_contagious + first_contagious_day) then
        with_S1_warnings tl (S1_infections_no_warning tl + 1)
          (S1_infections_some_warning tl) (S1_infections_good_warning tl)
      else if decide (t + test_lag >= day_contagious) then
        with_S1_warnings tl (S1_infections_no_warning tl)
          (S1_infections_some_warning tl + 1) (S1_infections_good_warning tl)
      else
        with_S1_warnings tl (S1_infections_no_warning tl)
          (S1_infections_some_warning tl) (S1_infections_good_warning tl + 1)
  end.

Definition agg_warnings (earliest : option Z) (day_contagious : Z)
    (tl : tallies) : tallies :=
  with_Agg_warnings tl
    (determine_agg_warnings earliest day_contagious
       (Agg_infections_no_warning tl) (Agg_infections_some_warning tl)
       (Agg_infections_good_warning tl)).

(** "Final results for simulation": the statements after the loop over
    the days, for one simulation. *)
Definition final_results (t : town) (tl : tallies) : script tallies :=
  kid1 ← student_0_0 (S1_school t);
  kid2 ← student_0_0 (S2_school t);
  clrm1 ← classroom_0 (S1_school t);
  let tl :=
    if decide (day_infected kid1 <= N_days) then
      let tl := with_S1_infections tl (S1_infections tl + 1) in
      let day_contagious := day_infected kid1 + first_contagious_day in
      S1_warnings (earliest_positive_test_day clrm1) day_contagious tl
    else tl in
  let tl :=
    if decide (day_infected kid2 <= N_days) then
      with_S2_infections tl (S2_infections tl + 1)
    else tl in
  let tl :=
    if decide (day_infected kid1 <= N_days ∨ day_infected kid2 <= N_days)
    then with_Agg_infections tl (Agg_infections tl + 1)
    else tl in
  let tl :=
    if decide (day_infected kid1 <= N_days ∧ day_infected kid2 <= N_days)
    then
      let day_contagious :=
        Z.min (day_infected kid1 + first_contagious_day)
              (day_infected kid2 + first_contagious_day) in
      agg_warnings (earliest_positive_test_day clrm1) day_contagious tl
    else if decide (day_infected kid1 <= N_days) then
      let day_contagious := day_infected kid1 + first_contagious_day in
      agg_warnings (earliest_positive_test_day clrm1) day_contagious tl
    else if decide (day_infected kid2 <= N_days) then
      let day_contagious := day_infected kid2 + first_contagious_day in
      agg_warnings (earliest_positive_test_day clrm1) day_contagious tl
    else tl in
  mret tl.
End Results.

(** The two schools as the simulation loop builds them. *)
Definition new_S1_school `{Settings} : script school :=
  school_init "S1_school" S1_classes_in_school S1_class_size
              (replicate S1_class_size 5) S1_teachers.

Definition new_S2_school `{Settings} : script school :=
  school_init "S2_school" S2_classes_in_school S2_class_size
              (replicate S2_class_size 3) S2_teachers.

(** [fam] is the family unit of a contagious student of some classroom of
    [cs]. *)
Definition contagious_in `{Settings} (cs : list classroom) (fam : option Z)
    : Prop :=
  ∃ clrm stdt, clrm ∈ cs ∧ stdt ∈ students clrm
               ∧ is_contagious stdt = true ∧ family_unit stdt = fam.

(** The students of a school, classroom after classroom. *)
Definition all_students (s : school) : list person :=
  mjoin (students <$> classrooms s).

(** ** What can happen to a classroom during one simulation *)

(** Between two calls of [classroom.test] the other methods rewrite the
    members of the classroom ([sicken], [update_days_sick],
    [assign_to_family]); [Members] stands for any such rewriting. *)
Inductive classroom_event :=
| Testing (day : Z)
| Members (ss ts : list person).

Definition classroom_step `{Settings} (c : classroom) (e : classroom_event)
    : classroom :=
  match e with
  | Testing day => classroom_test c day
  | Members ss ts =>
      {| number := number c; students := ss; teachers := ts;
         earliest_positive_test_day := earliest_positive_test_day c |}
  end.

Definition classroom_run `{Settings} (c : classroom)
    (es : list classroom_event) : classroom :=
  foldl classroom_step c es.

(** A classroom of one student and one teacher in which the teacher was
    sickened two days ago and the student is healthy. *)
Definition teacher_case : classroom :=
  let c := classroom_init 1 1 5 1 in
  {| number := number c;
     students := students c;
     teachers :=
       (λ teach, update_days_sick (update_days_sick (sicken teach 0)))
         <$> teachers c;
     earliest_positive_test_day := earliest_positive_test_day c |}.

(** ** The rest of the classes and of the simulation loop *)

(** The members of a classroom in the order in which
    [school.sicken_xth_person] counts them: students, then teachers. *)
Definition people_of (c : classroom) : list person :=
  (students c ++ teachers c)%list.

(** The members of a school, classroom after classroom. *)
Definition all_people (s : school) : list person :=
  mjoin (people_of <$> classrooms s).

Definition any_school_cases (self : school) : bool :=
  foldl (λ any_cases clrm,
           let any_cases :=
             foldl (λ any stdt, if is_sick stdt then true else any)
                   any_cases (students clrm) in
           foldl (λ any teach, if is_sick teach then true else any)
                 any_cases (teachers clrm))
        false (classrooms self).

(** [school.any_contagious_cases_in_classroom(classrm)] *)
Definition school_any_contagious_cases_in_classroom `{Settings}
    (self : school) (classrm : Z) : bool :=
  foldl (λ any_cases clrm,
           if decide (number clrm = classrm)
           then any_contagious_cases_in_classroom clrm else any_cases)
        false (classrooms self).

(** [[person("resident" + str(i), 30) for i in range(n)]] *)
Definition new_other_residents (n : Z) : list person :=
  (λ i, person_init ("resident" ++ str i) 30) <$> seqZ 0 n.

(** [school.classrooms[0].students[0].assign_to_family(fam)] *)
Definition assign_kid_to_family (s : school) (fam : Z) : script school :=
  clrm ← classroom_0 s;
  stdt ← student_0_0 s;
  mret (with_classrooms s
          (<[0%nat := with_students clrm
                        (<[0%nat := assign_to_family stdt fam]>
                           (students clrm))]>
             (classrooms s))).

(** "init people" and "assign students to families": the population at the
    start of one simulation. *)
Definition new_town `{Settings} : script town :=
  s1 ← new_S1_school;
  s2 ← new_S2_school;
  let residents :=
    new_other_residents (population - Z.of_nat (total_people s1)
                         - Z.of_nat (total_people s2)) in
  s1 ← assign_to_random_families s1;
  s2 ← assign_to_random_families s2;
  s1 ← assign_kid_to_family s1 (-1);
  s2 ← assign_kid_to_family s2 (-2);
  mret {| other_residents := residents; S1_school := s1; S2_school := s2 |}.

(** The body of [for day in range(...)].  The number of today's cases and
    the sample drawn by [random.sample(pop, today_cases)] are not modelled:
    [new_list] stands for the sample, and is empty on a day without
    cases. *)
Definition simulate_day `{Settings} (day : Z) (new_list : list nat)
    (t : town) : script town :=
  let t :=
    {| other_residents := update_days_sick <$> other_residents t;
       S1_school := school_update_days_sick (S1_school t);
       S2_school := school_update_days_sick (S2_school t) |} in
  t ← seed_all day new_list t;
  let s1 := spread_virus (S1_school t) day in
  let s2 := spread_virus (S2_school t) day in
  let s1 :=
    if bool_decide (day `mod` 7 ∈ [0; 2]) then school_test s1 day else s1 in
  mret {| other_residents := other_residents t;
          S1_school := s1; S2_school := s2 |}.

Fixpoint simulate_days `{Settings} (new_lists : Z → list nat)
    (days : list Z) (t : town) : script town :=
  match days with
  | [] => mret t
  | day :: rest =>
      t' ← simulate_day day (new_lists day) t;
      simulate_days new_lists rest t'
  end.

(** [for day in range(N_days + 2*first_contagious_day)] *)
Definition simulate `{Settings} (new_lists : Z → list nat) (t : town)
    : script town :=
  simulate_days new_lists (seqZ 0 (N_days + 2 * first_contagious_day)) t.

(** ** Notions used in the statements *)

(** Everybody in town, residents first. *)
Definition everybody (t : town) : list person :=
  (other_residents t ++ all_people (S1_school t)
   ++ all_people (S2_school t))%list.

(** At the end of day [day], a person is healthy, or was infected on
    [day_infected] and has carried the virus for the days since. *)
Definition aged_to (day : Z) (p : person) : Prop :=
  days_with_virus p = -1
  ∨ (0 <= days_with_virus p ∧ day_infected p + days_with_virus p = day).

(** [p'] is [p], possibly after [sicken] on [day]. *)
Definition only_sickened (day : Z) (p p' : person) : Prop :=
  p' = p ∨ p' = sicken p day.

(** What [sicken_xth_person] returns when it reaches person [q]. *)
Definition seeding_verdict (exclude_list : string) (q : person) : bool :=
  negb (str_in (name q) exclude_list) && negb (is_sick q).

(** Two lists of classrooms that differ at most in the state of their
    members. *)
Definition same_rooms (cs cs' : list classroom) : Prop :=
  Forall2 (λ c c', number c' = number c
                   ∧ earliest_positive_test_day c'
                     = earliest_positive_test_day c
                   ∧ length (students c') = length (students c)
                   ∧ length (teachers c') = length (teachers c)) cs cs'.

(** Two lists of classrooms that differ at most in the state of their
    members and in test days newly recorded, on days that satisfy [ok]. *)
Definition rooms_tested (ok : Z → Prop) (cs cs' : list classroom) : Prop :=
  Forall2 (λ c c', number c' = number c
                   ∧ length (students c') = length (students c)
                   ∧ length (teachers c') = length (teachers c)
                   ∧ (earliest_positive_test_day c'
                      = earliest_positive_test_day c
                      ∨ (earliest_positive_test_day c = None
                         ∧ ∃ d, earliest_positive_test_day c' = Some d
                                ∧ ok d))) cs cs'.

(** Every infection counted is counted in exactly one warning tier. *)
Definition tallies_add_up (tl : tallies) : Prop :=
  S1_infections tl
  = S1_infections_no_warning tl + S1_infections_some_warning tl
    + S1_infections_good_warning tl
  ∧ Agg_infections tl
    = Agg_infections_no_warning tl + Agg_infections_some_warning tl
      + Agg_infections_good_warning tl.

(** ** Small populations for examples *)

(** The settings of the script with another [students_per_family]. *)
Definition settings_with_family_size (q : Q) : Settings := {|
  population := 30054;
  test_lag := 1;
  first_contagious_day := 3;
  last_contagious_day := 13;
  first_positive_test_day := 1;
  last_positive_test_day := 16;
  students_per_family := q;
  S1_class_size := 14;
  S1_teachers := 2;
  S1_classes_in_school := 10;
  S2_class_size := 10;
  S2_teachers := 2;
  S2_classes_in_school := 3;
  N_days := 90
|}.

(** The floats [1.1] and [1.6]: the binary64 numbers nearest to 11/10 and
    to 16/10. *)
Definition float_1_1 : Q := (2476979795053773 # 2251799813685248)%Q.
Definition float_1_6 : Q := (3602879701896397 # 2251799813685248)%Q.

(** [school("middle", 3, 11, [5, 5, 5], 1)]: 33 students. *)
Definition three_by_eleven_school : school :=
  {| school_name := "middle";
     classrooms := [classroom_init 1 11 5 1; classroom_init 2 11 5 1;
                    classroom_init 3 11 5 1];
     class_size := 11 |}.

(** A generator that always draws 0, and nothing printed yet. *)
Definition quiet_world : world :=
  {| random_source := λ _, 0%nat; stdout := [] |}.

(** [school("tiny", 1, 1, [5], 0)]: one classroom of one student. *)
Definition one_student_school : school :=
  {| school_name := "tiny";
     classrooms := [classroom_init 1 1 5 0];
     class_size := 1 |}.

(** [school("small", 2, 2, [5, 5], 1)]: two classrooms of two students. *)
Definition two_by_two_school : school :=
  {| school_name := "small";
     classrooms := [classroom_init 1 2 5 1; classroom_init 2 2 5 1];
     class_size := 2 |}.

(** A classroom in which a positive test was recorded on day 2. *)
Definition detected_classroom : classroom :=
  {| number := 1;
     students := [ {| name := "student_1_0"; age := 5; days_with_virus := 4;
                      day_infected := 0; family_unit := Some 0 |} ];
     teachers := [ person_init "teacher_1_0" 30 ];
     earliest_positive_test_day := Some 2 |}.

(** A school on a Saturday: in classroom 1 a contagious student of family 7
    sits next to a healthy student of family 8; the sibling of family 7 is
    in classroom 2. *)
Definition weekend_school : school :=
  {| school_name := "weekend";
     classrooms :=
       [ {| number := 1;
            students :=
              [ {| name := "student_1_0"; age := 5; days_with_virus := 5;
                   day_infected := 0; family_unit := Some 7 |};
                {| name := "student_1_1"; age := 5; days_with_virus := -1;
                   day_infected := 1000000; family_unit := Some 8 |} ];
            teachers := [ person_init "teacher_1_0" 30 ];
            earliest_positive_test_day := None |};
         {| number := 2;
            students :=
              [ {| name := "student_2_0"; age := 5; days_with_virus := -1;
                   day_infected := 1000000; family_unit := Some 7 |} ];
            teachers := [ person_init "teacher_2_0" 30 ];
            earliest_positive_test_day := None |} ];
     class_size := 2 |}.

(** The end of a simulation in which the kid of school 1 was infected on
    day 10 and the kid of school 2 on day 20, and classroom 1 of school 1
    had its first positive test on day 12. *)
Definition both_infected_town : town :=
  {| other_residents := [];
     S1_school :=
       {| school_name := "S1_school";
          classrooms :=
            [ {| number := 1;
                 students :=
                   [ {| name := "student_1_0"; age := 5;
                        days_with_virus := 85; day_infected := 10;
                        family_unit := Some (-1) |} ];
                 teachers := [];
                 earliest_positive_test_day := Some 12 |} ];
          class_size := 1 |};
     S2_school :=
       {| school_name := "S2_school";
          classrooms :=
            [ {| number := 1;
                 students :=
                   [ {| name := "student_1_0"; age := 3;
                        days_with_virus := 75; day_infected := 20;
                        family_unit := Some (-2) |} ];
                 teachers := [];
                 earliest_positive_test_day := None |} ];
          class_size := 1 |} |}.

Definition no_tallies : tallies :=
  {| S1_infections := 0; S2_infections := 0;
     S1_infections_no_warning := 0; S1_infections_some_warning := 0;
     S1_infections_good_warning := 0; Agg_infections := 0;
     Agg_infections_no_warning := 0; Agg_infections_some_warning := 0;
     Agg_infections_good_warning := 0 |}.

(** A classroom without a test day in which a student tests positive. *)
Definition positive_classroom : classroom :=
  {| number := 1;
     students :=
       [ {| name := "student_1_0"; age := 5; days_with_virus := 5;
            day_infected := 2; family_unit := Some 7 |};
         person_init "student_1_1" 5 ];
     teachers := [ person_init "teacher_1_0" 30 ];
     earliest_positive_test_day := None |}.

(** A healthy town of two small schools and no other resident. *)
Definition small_town : town :=
  {| other_residents := [];
     S1_school := two_by_two_school;
     S2_school := one_student_school |}.

(** A town in which school 1 has no classroom. *)
Definition town_without_kid : town :=
  {| other_residents := [];
     S1_school := {| school_name := "S1_school"; classrooms := [];
                     class_size := 0 |};
     S2_school := one_student_school |}.

(** ** Properties *)

(** *** Persons *)

Section PersonFacts.
Context `{Settings}.

Lemma tests_positive_true (p : person) :
  tests_positive p = true ↔
  first_positive_test_day < days_with_virus p <= last_positive_test_day.
Proof. unfold tests_positive. case_decide; split; intros; try done; lia. Qed.

Lemma is_contagious_true (p : person) :
  is_contagious p = true ↔
  first_contagious_day <= days_with_virus p < last_contagious_day.
Proof. unfold is_contagious. case_decide; split; intros; try done; lia. Qed.

(** C5: [is_contagious] holds exactly on the half-open window
    [first_contagious_day <= timer < last_contagious_day], and
    [tests_positive] exactly on
    [first_positive_test_day < timer <= last_positive_test_day]. *)
Theorem predicate_windows (p : person) :
  (is_contagious p = true ↔
     first_contagious_day <= days_with_virus p
     ∧ days_with_virus p < last_contagious_day)
  ∧ (tests_positive p = true ↔
     first_positive_test_day < days_with_virus p
     ∧ days_with_virus p <= last_positive_test_day).
Proof.
  split.
  - apply is_contagious_true.
  - apply tests_positive_true.
Qed.
End PersonFacts.

(** Timers never go below -1; on such a person [sicken] ends with a sick
    person. *)
Lemma sicken_is_sick (p : person) (day : Z) :
  -1 <= days_with_virus p → is_sick (sicken p day) = true.
Proof.
  intros Hge. unfold sicken. destruct (decide (days_with_virus p = -1)) as [Hv|Hv].
  - done.
  - unfold is_sick. case_decide; [done | lia].
Qed.

Lemma sicken_healthy (p : person) (day : Z) :
  -1 <= days_with_virus p → is_sick p = false →
  days_with_virus (sicken p day) = 0 ∧ day_infected (sicken p day) = day.
Proof.
  intros Hge.
  unfold is_sick, sicken. destruct (decide (days_with_virus p > -1)); [done |].
  intros _. destruct (decide (days_with_virus p = -1)); [done | lia].
Qed.

Lemma sicken_sick (p : person) (day : Z) : is_sick p = true → sicken p day = p.
Proof.
  unfold is_sick, sicken. destruct (decide (days_with_virus p > -1)); [| done].
  intros _. destruct (decide (days_with_virus p = -1)); [lia | done].
Qed.

(** *** The warning tiers *)

Section WarningFacts.
Context `{Settings}.

(** C4: [determine_agg_warnings] adds 1 to exactly one of its three
    counters: the no-warning counter iff the test day is [None] or
    [T + test_lag >= day_contagious + first_contagious_day]; otherwise the
    some-warning counter iff [T + test_lag >= day_contagious]; otherwise
    the good-warning counter. *)
Theorem determine_agg_warnings_one_tier (T : option Z)
    (day_contagious no some good : Z) :
  let late t := t + test_lag >= day_contagious + first_contagious_day in
  let r := determine_agg_warnings T day_contagious no some good in
  (r = (no + 1, some, good) ↔ T = None ∨ ∃ t, T = Some t ∧ late t)
  ∧ (r = (no, some + 1, good) ↔
       ∃ t, T = Some t ∧ ¬ late t ∧ t + test_lag >= day_contagious)
  ∧ (r = (no, some, good + 1) ↔
       ∃ t, T = Some t ∧ ¬ late t ∧ ¬ t + test_lag >= day_contagious)
  ∧ (r = (no + 1, some, good) ∨ r = (no, some + 1, good)
     ∨ r = (no, some, good + 1)).
Proof.
  intros late r. subst late r. unfold determine_agg_warnings.
  destruct T as [t|].
  - repeat case_decide; repeat split;
      try (intros [= ?]; lia);
      try (intros [? | (t' & [= <-] & ?)]; done);
      try (intros (t' & [= <-] & ? & ?); done);
      eauto 10.
  - repeat split; try (intros [= ?]; lia); eauto;
      intros (t' & ? & _); done.
Qed.

(** C10: the branches written out for school 1 add 1 to the school-1
    counter of the same tier as the one [determine_agg_warnings] picks on
    the same test day and [day_contagious], and touch no other tally. *)
Theorem S1_warnings_as_determine_agg_warnings (T : option Z)
    (day_contagious : Z) (tl : tallies) :
  let tl' := S1_warnings T day_contagious tl in
  (S1_infections_no_warning tl', S1_infections_some_warning tl',
   S1_infections_good_warning tl')
  = determine_agg_warnings T day_contagious
      (S1_infections_no_warning tl) (S1_infections_some_warning tl)
      (S1_infections_good_warning tl)
  ∧ S1_infections tl' = S1_infections tl
  ∧ S2_infections tl' = S2_infections tl
  ∧ Agg_infections tl' = Agg_infections tl
  ∧ Agg_infections_no_warning tl' = Agg_infections_no_warning tl
  ∧ Agg_infections_some_warning tl' = Agg_infections_some_warning tl
  ∧ Agg_infections_good_warning tl' = Agg_infections_good_warning tl.
Proof.
  unfold S1_warnings, determine_agg_warnings.
  destruct T as [t|]; repeat case_decide; done.
Qed.
End WarningFacts.

(** *** Testing a classroom *)

Section TestFacts.
Context `{Settings}.

Lemma foldl_test_student_set (day t : Z) (ss : list person) :
  foldl (test_student day) (Some t) ss = Some t.
Proof.
  induction ss as [|stdt ss IH]; simpl; [done |].
  unfold test_student at 2. by destruct (tests_positive stdt).
Qed.

Lemma foldl_test_student_unset (day : Z) (ss : list person) :
  foldl (test_student day) None ss
  = if existsb tests_positive ss then Some day else None.
Proof.
  induction ss as [|stdt ss IH]; simpl; [done |].
  unfold test_student at 2. destruct (tests_positive stdt); simpl.
  - apply foldl_test_student_set.
  - apply IH.
Qed.

(** C2, as the code has it: [classroom.test] examines the students of the
    classroom and nobody else.  It sets [earliest_positive_test_day] to
    [day] when the field is unset and some student tests positive, and
    leaves the field as it was in every other case, whatever the teachers'
    timers are; the members are not changed. *)
Theorem classroom_test_students_only (c : classroom) (day : Z) :
  earliest_positive_test_day (classroom_test c day)
  = match earliest_positive_test_day c with
    | Some t => Some t
    | None => if existsb tests_positive (students c) then Some day else None
    end
  ∧ students (classroom_test c day) = students c
  ∧ teachers (classroom_test c day) = teachers c
  ∧ number (classroom_test c day) = number c.
Proof.
  repeat split. simpl.
  destruct (earliest_positive_test_day c) as [t|].
  - apply foldl_test_student_set.
  - apply foldl_test_student_unset.
Qed.

Lemma classroom_step_keeps (c : classroom) (t : Z) (e : classroom_event) :
  earliest_positive_test_day c = Some t →
  earliest_positive_test_day (classroom_step c e) = Some t.
Proof.
  intros Hc. destruct e as [day | ss ts]; simpl.
  - rewrite Hc. apply foldl_test_student_set.
  - exact Hc.
Qed.

(** C9: once [earliest_positive_test_day] holds a day, no later call of
    [classroom.test] changes it, on whatever days the calls are made and
    however the members' timers are rewritten between the calls. *)
Theorem first_detection_wins (c : classroom) (t : Z)
    (es : list classroom_event) :
  earliest_positive_test_day c = Some t →
  earliest_positive_test_day (classroom_run c es) = Some t.
Proof.
  unfold classroom_run. revert c.
  induction es as [|e es IH]; intros c Hc; simpl.
  - exact Hc.
  - apply IH. by apply classroom_step_keeps.
Qed.
End TestFacts.

(** *** Family assignment: the configuration error *)

Section RejectFacts.
Context `{Settings}.

(** C8: with [students_per_family < 1] the method prints its message and
    returns; the school, and so the [family_unit] of every member, is what
    it was before the call, and no random number is drawn. *)
Theorem assign_to_random_families_rejects (s : school) (w : world) :
  (students_per_family < 1)%Q →
  assign_to_random_families s w
  = Returned s
      {| random_source := random_source w;
         stdout := stdout w
                   ++ ["Can't have fewer than 1 student per family."] |}.
Proof.
  intros Hlt. unfold assign_to_random_families.
  destruct (Qlt_le_dec students_per_family 1) as [_ | Hge].
  - reflexivity.
  - exfalso. exact (Qlt_not_le _ _ Hlt Hge).
Qed.
End RejectFacts.

(** *** The aggregate tallies *)

Section AggregateFacts.
Context `{Settings}.

Lemma Agg_warnings_of_S1_warnings T dc tl :
  Agg_warnings_of (S1_warnings T dc tl) = Agg_warnings_of tl.
Proof.
  unfold S1_warnings. destruct T; repeat case_decide; reflexivity.
Qed.

Lemma Agg_warnings_of_agg_warnings T dc tl :
  Agg_warnings_of (agg_warnings T dc tl)
  = determine_agg_warnings T dc (Agg_infections_no_warning tl)
      (Agg_infections_some_warning tl) (Agg_infections_good_warning tl).
Proof.
  unfold agg_warnings, Agg_warnings_of. simpl.
  by destruct (determine_agg_warnings _ _ _ _ _) as [[? ?] ?].
Qed.

(** C3: at the end of a simulation the aggregate warning counters are
    updated by [determine_agg_warnings] on the test day of classroom 0 of
    school 1 in every case: with the minimum of the two kids'
    [day_infected + first_contagious_day] when both were infected by
    [N_days], and with the infected kid's own value when exactly one was.
    The test day of school 2 is never read. *)
Theorem aggregate_classification (t : town) (tl : tallies) (w : world)
    (c1 c2 : classroom) (kid1 kid2 : person) :
  classrooms (S1_school t) !! 0%nat = Some c1 →
  students c1 !! 0%nat = Some kid1 →
  classrooms (S2_school t) !! 0%nat = Some c2 →
  students c2 !! 0%nat = Some kid2 →
  ∃ tl', final_results t tl w = Returned tl' w ∧
    let T := earliest_positive_test_day c1 in
    let d1 := day_infected kid1 + first_contagious_day in
    let d2 := day_infected kid2 + first_contagious_day in
    let update dc :=
      determine_agg_warnings T dc (Agg_infections_no_warning tl)
        (Agg_infections_some_warning tl) (Agg_infections_good_warning tl) in
    (day_infected kid1 <= N_days ∧ day_infected kid2 <= N_days →
       Agg_warnings_of tl' = update (Z.min d1 d2))
    ∧ (day_infected kid1 <= N_days ∧ ¬ day_infected kid2 <= N_days →
       Agg_warnings_of tl' = update d1)
    ∧ (¬ day_infected kid1 <= N_days ∧ day_infected kid2 <= N_days →
       Agg_warnings_of tl' = update d2).
Proof.
  intros Hc1 Hk1 Hc2 Hk2.
  unfold final_results, student_0_0, classroom_0, mbind, script_bind.
  rewrite Hc1, Hc2. unfold mret at 1 3, script_ret. rewrite Hk1, Hk2.
  unfold mret, script_ret.
  eexists. split; [reflexivity |]. simpl.
  repeat split; intros [Hd1 Hd2]; repeat case_decide; try tauto;
    rewrite Agg_warnings_of_agg_warnings; simpl;
    repeat match goal with
           | |- context [Agg_infections_no_warning (S1_warnings ?a ?b ?c)] =>
               change (Agg_infections_no_warning (S1_warnings a b c))
                 with (Agg_warnings_of (S1_warnings a b c)).1.1
           | |- context [Agg_infections_some_warning (S1_warnings ?a ?b ?c)] =>
               change (Agg_infections_some_warning (S1_warnings a b c))
                 with (Agg_warnings_of (S1_warnings a b c)).1.2
           | |- context [Agg_infections_good_warning (S1_warnings ?a ?b ?c)] =>
               change (Agg_infections_good_warning (S1_warnings a b c))
                 with (Agg_warnings_of (S1_warnings a b c)).2
           end;
    rewrite ?Agg_warnings_of_S1_warnings; reflexivity.
Qed.
End AggregateFacts.

(** *** Spreading on a weekend *)

Section SpreadFacts.
Context `{Settings}.

Lemma elem_of_contagious_students (ss : list person) (acc : gset (option Z))
    (fam : option Z) :
  fam ∈ foldl (λ fams stdt,
                 if is_contagious stdt
                 then fams ∪ {[ family_unit stdt ]} else fams) acc ss
  ↔ fam ∈ acc
    ∨ ∃ stdt, stdt ∈ ss ∧ is_contagious stdt = true
              ∧ family_unit stdt = fam.
Proof.
  revert acc. induction ss as [|q ss IH]; intros acc; simpl.
  - split; [by left |]. intros [? | (? & Hin & _)]; [done |].
    by apply elem_of_nil in Hin.
  - destruct (is_contagious q) eqn:Hq; rewrite IH; set_unfold; split.
    + intros [[? | ->] | (p & ? & ? & ?)];
        [by left | right; exists q; by auto | right; exists p; by auto].
    + intros [? | (p & [-> | ?] & Hp & Hf)];
        [by left; left | left; by right | right; by exists p].
    + intros [? | (p & ? & ? & ?)]; [by left | right; exists p; by auto].
    + intros [? | (p & [-> | ?] & Hp & Hf)];
        [by left | congruence | right; by exists p].
Qed.

Lemma elem_of_contagious_classrooms (cs : list classroom)
    (acc : gset (option Z)) (fam : option Z) :
  fam ∈ foldl (λ fams clrm,
                 foldl (λ fams stdt,
                          if is_contagious stdt
                          then fams ∪ {[ family_unit stdt ]} else fams)
                       fams (students clrm)) acc cs
  ↔ fam ∈ acc ∨ contagious_in cs fam.
Proof.
  unfold contagious_in.
  revert acc. induction cs as [|c cs IH]; intros acc; simpl.
  - split; [by left |]. intros [? | (? & ? & Hin & _)]; [done |].
    by apply elem_of_nil in Hin.
  - rewrite IH, elem_of_contagious_students. set_unfold. split.
    + intros [[? | (p & ? & ? & ?)] | (c' & p & ? & ? & ? & ?)].
      * by left.
      * right. exists c, p. by auto.
      * right. exists c', p. by auto.
    + intros [? | (c' & p & [-> | ?] & ? & ? & ?)].
      * by left; left.
      * left; right. by exists p.
      * right. by exists c', p.
Qed.

Lemma elem_of_contagious_families (cs : list classroom) (fam : option Z) :
  fam ∈ contagious_families cs ↔ contagious_in cs fam.
Proof.
  unfold contagious_families. rewrite elem_of_contagious_classrooms.
  split; [intros [Hin | ?]; [by apply elem_of_empty in Hin | done] | by right].
Qed.

(** C6: on a day with [day % 7] equal to 5 or 6 nothing is spread within
    classrooms: teachers are left as they are, and so is every student
    whose family unit has no contagious student in the school.  The spread
    within families still runs: every student whose family unit is that
    of a contagious student of any classroom of the school is sickened. *)
Theorem weekend_spread (s : school) (day : Z) :
  day `mod` 7 = 5 ∨ day `mod` 7 = 6 →
  let s' := spread_virus s day in
  school_name s' = school_name s
  ∧ class_size s' = class_size s
  ∧ Forall2
      (λ c c',
         number c' = number c
         ∧ teachers c' = teachers c
         ∧ earliest_positive_test_day c' = earliest_positive_test_day c
         ∧ Forall2
             (λ p p',
                (contagious_in (classrooms s) (family_unit p) →
                   p' = sicken p day
                   ∧ (-1 <= days_with_virus p → is_sick p' = true))
                ∧ (¬ contagious_in (classrooms s) (family_unit p) →
                   p' = p))
             (students c) (students c'))
      (classrooms s) (classrooms s').
Proof.
  intros Hday. unfold spread_virus.
  assert (bool_decide (day `mod` 7 ∈ [5; 6]) = true) as ->.
  { apply bool_decide_eq_true. destruct Hday as [-> | ->]; set_solver. }
  simpl. split_and!; [done | done |].
  apply Forall2_fmap_r, Forall_Forall2_diag, Forall_forall.
  intros c _. simpl. split_and!; [done | done | done |].
  apply Forall2_fmap_r, Forall_Forall2_diag, Forall_forall.
  intros p _. unfold compose. cbv beta.
  rewrite <- !elem_of_contagious_families.
  case_decide; split; intros ?; try done.
  split; [done |]. by apply sicken_is_sick.
Qed.
End SpreadFacts.

(** *** Seeding *)

(** The sampled index [len(other_residents)] is handed to school 1 as its
    person 0. *)
Lemma seed_person_0_of_S1 (day : Z) (residents : list person)
    (s1 s2 : school) (w w' : world) (ret : option bool) (s1' : school) :
  (0 < total_people s1)%nat →
  sicken_xth_person s1 0 "student_1_1" day w = Returned (ret, s1') w' →
  seed day (length residents)
       {| other_residents := residents; S1_school := s1; S2_school := s2 |} w
  = Returned {| other_residents := residents; S1_school := s1';
                S2_school := s2 |} w'.
Proof.
  intros Hpos Hx. unfold seed. cbn [other_residents S1_school S2_school].
  destruct (decide (length residents < length residents)%nat); [lia |].
  destruct (decide (length residents
                    < length residents + total_people s1)%nat); [| lia].
  rewrite Z.sub_diag. unfold mbind, script_bind. by rewrite Hx.
Qed.

Section SeedingFacts.
#[local] Existing Instance script_settings.

(** C1 fails on the code.  The simulation loop passes the exclude list
    ["student_1_1"], and the kid of interest of school 1, the first
    student of its first classroom, is named ["student_1_0"].  On the
    school as it is built, on any day, the sampled index that locates that
    kid makes [sicken_xth_person] return [True] and sicken the kid: the
    timer goes from -1 to 0 and [day_infected] becomes the day. *)
Theorem seeding_sickens_kid_of_interest (day : Z) (residents : list person)
    (s2 : school) (w : world) :
  ∃ s1 kid s1' kid',
    new_S1_school w = Returned s1 w
    ∧ student_0_0 s1 w = Returned kid w
    ∧ name kid = "student_1_0"
    ∧ days_with_virus kid = -1
    ∧ str_in (name kid) "student_1_1" = false
    ∧ sicken_xth_person s1 0 "student_1_1" day w
      = Returned (Some true, s1') w
    ∧ seed day (length residents)
           {| other_residents := residents; S1_school := s1;
              S2_school := s2 |} w
      = Returned {| other_residents := residents; S1_school := s1';
                    S2_school := s2 |} w
    ∧ student_0_0 s1' w = Returned kid' w
    ∧ days_with_virus kid' = 0
    ∧ day_infected kid' = day.
Proof.
  eexists _, _, _, _.
  split; [vm_compute; reflexivity |].
  split; [vm_compute; reflexivity |].
  split; [reflexivity |]. split; [reflexivity |]. split; [reflexivity |].
  match goal with |- ?P ∧ _ => assert P as Hx end.
  { vm_compute. reflexivity. }
  split; [exact Hx |].
  split; [eapply seed_person_0_of_S1; [vm_compute; lia | exact Hx] |].
  split; [vm_compute; reflexivity |]. split; reflexivity.
Qed.
End SeedingFacts.

(** *** Family assignment *)

Lemma randint_from_0 (n : Z) (w : world) :
  1 <= n →
  ∃ r w', randint 0 (n - 1) w = Returned r w' ∧ 0 <= r < n
          ∧ stdout w' = stdout w.
Proof.
  intros Hn. unfold randint. destruct (decide (n - 1 < 0)); [lia |].
  eexists _, _. split; [reflexivity |]. simpl. split; [| done].
  assert (random_source w 0%nat `mod` Z.to_nat (n - 1 - 0 + 1)
          < Z.to_nat (n - 1 - 0 + 1))%nat by (apply Nat.mod_upper_bound; lia).
  lia.
Qed.

Lemma append_random_returns (k : nat) (n : Z) (l : list Z) (w : world) :
  1 <= n ∨ k = 0%nat →
  ∃ draws w',
    append_random k n l w = Returned (l ++ draws)%list w'
    ∧ length draws = k
    ∧ Forall (λ d, 0 <= d < n) draws
    ∧ stdout w' = stdout w.
Proof.
  revert l w. induction k as [|k IH]; intros l w Hn.
  - exists [], w. rewrite app_nil_r. by repeat split.
  - destruct Hn as [Hn | ?]; [| done].
    destruct (randint_from_0 n w Hn) as (r & w1 & Hr & Hrange & Hout1).
    destruct (IH (l ++ [r])%list w1 (or_introl Hn))
      as (draws & w2 & Hrec & Hlen & Hall & Hout2).
    exists (r :: draws), w2. simpl. unfold mbind, script_bind.
    rewrite Hr, Hrec, <- app_assoc. simpl.
    repeat split; [by rewrite Hlen | by constructor | congruence].
Qed.

Lemma swap_Permutation (x : list Z) (i j : nat) : swap x i j ≡ₚ x.
Proof.
  unfold swap.
  destruct (x !! i) as [a|] eqn:Hi; [| done].
  destruct (x !! j) as [b|] eqn:Hj; [| done].
  apply Permutation_inj. split; [by rewrite !length_insert |].
  exists (λ k, if decide (k = i) then j else if decide (k = j) then i else k).
  split.
  - intros k1 k2. repeat case_decide; intros; subst; congruence.
  - intros k. rewrite !list_lookup_insert, !length_insert.
    apply lookup_lt_Some in Hi as Hil. apply lookup_lt_Some in Hj as Hjl.
    repeat case_decide; subst; try done; try lia.
    destruct_and!; congruence.
Qed.

Lemma shuffle_from_Permutation (i : nat) (x : list Z) (w : world) :
  ∃ x' w', shuffle_from i x w = Returned x' w' ∧ x' ≡ₚ x
           ∧ stdout w' = stdout w.
Proof.
  revert x w. induction i as [|i IH]; intros x w.
  - by exists x, w.
  - simpl. unfold mbind, script_bind. simpl.
    match goal with
    | |- context [shuffle_from i ?y ?v] =>
        destruct (IH y v) as (x' & w' & Hrec & Hperm & Hout)
    end.
    exists x', w'. split; [exact Hrec |]. split; [| exact Hout].
    by rewrite Hperm, swap_Permutation.
Qed.

Lemma shuffle_Permutation (x : list Z) (w : world) :
  ∃ x' w', shuffle x w = Returned x' w' ∧ x' ≡ₚ x ∧ stdout w' = stdout w.
Proof. apply shuffle_from_Permutation. Qed.

(** The members of a school, classroom after classroom. *)
Lemma family_set_students (s : school) :
  family_set s = list_to_set (family_unit <$> all_students s).
Proof.
  unfold family_set, all_students.
  enough (∀ cs (acc : gset (option Z)),
            foldl (λ fs clrm, foldl (λ fs stdt, fs ∪ {[ family_unit stdt ]})
                                    fs (students clrm)) acc cs
            = acc ∪ list_to_set (family_unit <$> mjoin (students <$> cs)))
    as Hgen.
  { rewrite Hgen. apply (left_id_L ∅ (∪)). }
  assert (∀ ss (acc : gset (option Z)),
            foldl (λ fs stdt, fs ∪ {[ family_unit stdt ]}) acc ss
            = acc ∪ list_to_set (family_unit <$> ss)) as Hinner.
  { induction ss as [|q ss IH]; intros acc; simpl.
    - by rewrite (right_id_L ∅ (∪)).
    - rewrite IH. by rewrite (assoc_L (∪)). }
  induction cs as [|c cs IH]; intros acc; simpl.
  - by rewrite (right_id_L ∅ (∪)).
  - rewrite IH, Hinner, fmap_app, list_to_set_app_L.
    by rewrite (assoc_L (∪)).
Qed.

Lemma total_students_length (s : school) :
  total_students s = length (all_students s).
Proof.
  unfold total_students, all_students.
  enough (∀ cs n,
            foldl (λ total clrm, (total + length (students clrm))%nat) n cs
            = (n + length (mjoin (students <$> cs)))%nat) as Hgen
    by apply Hgen.
  induction cs as [|c cs IH]; intros n; csimpl.
  - lia.
  - rewrite IH, length_app. lia.
Qed.

Lemma all_students_full (cs : list classroom) (size : nat) :
  Forall (λ c, length (students c) = size) cs →
  length (mjoin (students <$> cs)) = (length cs * size)%nat.
Proof.
  induction 1 as [|c cs Hc _ IH]; csimpl; [done |].
  rewrite length_app, IH, Hc. lia.
Qed.

Lemma assign_students_returns (ss : list person) (fams : list Z) (w : world) :
  (length ss <= length fams)%nat →
  assign_students ss fams w = Returned (zip_with assign_to_family ss fams) w.
Proof.
  revert fams. induction ss as [|stdt ss IH]; intros fams Hlen; [done |].
  destruct fams as [|fam fams]; simpl in Hlen; [lia |].
  simpl. unfold mbind, script_bind. rewrite IH by lia. done.
Qed.

Lemma join_students_cons (c : classroom) (cs : list classroom) :
  mjoin (students <$> c :: cs) = (students c ++ mjoin (students <$> cs))%list.
Proof. reflexivity. Qed.

Lemma assign_classrooms_returns (cs : list classroom) (fams : list Z)
    (size : nat) (w : world) :
  Forall (λ c, length (students c) = size) cs →
  length fams = (length cs * size)%nat →
  ∃ cs',
    assign_classrooms cs fams size w = Returned cs' w
    ∧ mjoin (students <$> cs')
      = zip_with assign_to_family (mjoin (students <$> cs)) fams.
Proof.
  intros Hcs. revert fams.
  induction Hcs as [|c cs Hc _ IH]; intros fams Hlen.
  - by exists [].
  - simpl in Hlen.
    destruct (IH (drop size fams)) as (cs' & Hrec & Hjoin).
    { rewrite length_drop. lia. }
    exists (with_students c (zip_with assign_to_family (students c)
                               (take size fams)) :: cs').
    assert (length (take size fams) = size) as Htake
      by (rewrite length_take; lia).
    split.
    { simpl. unfold classroom_assign_to_families, mbind, script_bind.
      rewrite assign_students_returns by lia.
      unfold mret at 1, script_ret. by rewrite Hrec. }
    rewrite !join_students_cons, Hjoin. simpl.
    rewrite <- (take_drop size fams) at 3.
    symmetry. apply zip_with_app. lia.
Qed.

Lemma family_unit_zip_with (ss : list person) (fams : list Z) :
  length fams = length ss →
  family_unit <$> zip_with assign_to_family ss fams = Some <$> fams.
Proof.
  revert fams. induction ss as [|stdt ss IH]; intros [|fam fams] Hlen;
    simpl in *; try done.
  f_equal. apply IH. lia.
Qed.

(** *** The quotient of floats *)

Lemma round_half_even_nonneg (a b : Z) :
  0 <= a → 0 < b → 0 <= round_half_even a b.
Proof.
  intros Ha Hb. unfold round_half_even.
  assert (0 <= a / b) by (apply Z.div_pos; lia).
  repeat case_decide; destruct (Z.even (a / b)); lia.
Qed.

Lemma round_half_even_le (a b K : Z) :
  0 < b → a <= K * b → round_half_even a b <= K.
Proof.
  intros Hb Ha. unfold round_half_even.
  pose proof (Z.div_mod a b ltac:(lia)) as Hdiv.
  pose proof (Z.mod_pos_bound a b Hb) as Hmod.
  assert (a / b <= K) as Hq by (apply Z.div_le_upper_bound; lia).
  destruct (decide (a / b = K)) as [Heq | Hne].
  - assert (a `mod` b = 0) as Hr by nia.
    rewrite Hr. rewrite decide_True by lia. lia.
  - repeat case_decide; destruct (Z.even (a / b)); lia.
Qed.

Lemma floor_log2_le (a b : Z) : floor_log2 a b <= Z.log2 a - Z.log2 b.
Proof. unfold floor_log2. repeat case_decide; lia. Qed.

Lemma floor_log2_ge_53 (a b : Z) :
  0 < a → 0 < b → 53 <= floor_log2 a b → 2 ^ 53 * b <= a.
Proof.
  intros Ha Hb. unfold floor_log2.
  set (e0 := Z.log2 a - Z.log2 b).
  destruct (Z.log2_spec a Ha) as [Hla _].
  destruct (Z.log2_spec b Hb) as [_ Hlb].
  pose proof (Z.log2_nonneg a) as Hla0. pose proof (Z.log2_nonneg b) as Hlb0.
  destruct (decide (0 <= e0)) as [He0 | He0]; [| case_decide; lia].
  destruct (decide (2 ^ e0 * b <= a)) as [Hc | Hc]; intros He.
  - assert (2 ^ 53 <= 2 ^ e0) by (apply Z.pow_le_mono_r; lia). nia.
  - assert (2 ^ 53 <= 2 ^ (e0 - 1)) as H53 by (apply Z.pow_le_mono_r; lia).
    assert (2 ^ (e0 - 1) * 2 ^ Z.succ (Z.log2 b) = 2 ^ Z.log2 a) as Hpow.
    { rewrite <- Z.pow_add_r by lia. f_equal. lia. }
    nia.
Qed.

Lemma Qfloor_binary64_pos (a b K : Z) :
  0 < a → 0 < b → a <= K * b → K < 2 ^ 53 →
  0 <= Qfloor (binary64_pos a b) <= K.
Proof.
  intros Ha Hb HK H53. unfold binary64_pos.
  set (e := Z.max (floor_log2 a b - 52) (-1074)).
  destruct (decide (0 <= e)) as [He | He].
  - rewrite Qfloor_Z.
    destruct (decide (e = 0)) as [-> | Hne].
    + rewrite Z.pow_0_r, !Z.mul_1_r. split.
      * apply round_half_even_nonneg; lia.
      * by apply round_half_even_le.
    + exfalso. assert (53 <= floor_log2 a b) as Hlog by lia.
      pose proof (floor_log2_ge_53 a b Ha Hb Hlog). nia.
  - assert (0 < 2 ^ (- e)) as Hpow by (apply Z.pow_pos_nonneg; lia).
    unfold Qfloor. rewrite Z2Pos.id by done.
    pose proof (round_half_even_nonneg (a * 2 ^ (- e)) b ltac:(nia) Hb).
    pose proof (round_half_even_le (a * 2 ^ (- e)) b (K * 2 ^ (- e)) Hb
                  ltac:(nia)).
    split.
    + apply Z.div_pos; lia.
    + apply Z.div_le_upper_bound; lia.
Qed.

Lemma Qfloor_binary64 (x : Q) (K : Z) :
  (0 <= x)%Q → (x <= inject_Z K)%Q → K < 2 ^ 53 →
  0 <= Qfloor (binary64 x) <= K.
Proof.
  destruct x as [a b]. unfold Qle, binary64. simpl.
  intros Ha HK H53. destruct a as [|a|a]; [simpl | | lia].
  - assert (0 <= K) by lia. done.
  - apply Qfloor_binary64_pos; lia.
Qed.

Lemma float_of_int_exact (n : Z) :
  0 <= n < 2 ^ 53 → (float_of_int n == inject_Z n)%Q.
Proof.
  intros [Hn H53]. unfold float_of_int, binary64. simpl.
  destruct n as [|n|n]; [done | | lia].
  unfold binary64_pos.
  set (e := Z.max (floor_log2 (Z.pos n) 1 - 52) (-1074)).
  assert (e <= 0) as He.
  { pose proof (floor_log2_le (Z.pos n) 1) as Hle.
    change (Z.log2 1) with 0 in Hle.
    assert (Z.log2 (Z.pos n) < 53) by (apply Z.log2_lt_pow2; lia).
    lia. }
  unfold round_half_even.
  destruct (decide (0 <= e)) as [He0 | He0].
  - assert (e = 0) as -> by lia. simpl (2 ^ 0).
    rewrite !Z.mul_1_r, Z.div_1_r, Z.mod_1_r. by rewrite decide_True by lia.
  - rewrite Z.div_1_r, Z.mod_1_r, decide_True by lia.
    assert (0 < 2 ^ (- e)) as Hpow by (apply Z.pow_pos_nonneg; lia).
    unfold Qeq. simpl. rewrite Z2Pos.id by done. lia.
Qed.

Lemma float_quotient_bounds (n : Z) (spf : Q) :
  (1 <= spf)%Q → 0 <= n < 2 ^ 53 →
  0 <= Qfloor (float_div (float_of_int n) spf) <= n.
Proof.
  intros Hspf Hn. unfold float_div.
  assert (0 < spf)%Q as Hpos
    by (eapply Qlt_le_trans; [| exact Hspf]; reflexivity).
  assert (0 <= inject_Z n)%Q as Hn0 by (rewrite <- (Zle_Qle 0); lia).
  pose proof (float_of_int_exact n Hn) as Hexact.
  apply Qfloor_binary64; [| | lia].
  - apply Qle_shift_div_l; [exact Hpos |]. by rewrite Qmult_0_l, Hexact.
  - apply Qle_shift_div_r; [exact Hpos |]. rewrite Hexact.
    apply Qle_trans with (inject_Z n * 1)%Q.
    + rewrite Qmult_1_r. apply Qle_refl.
    + apply Qmult_le_compat_nonneg; split;
        [exact Hn0 | apply Qle_refl | discriminate | exact Hspf].
Qed.

(** The rounding on small cases: the literals [1.1] and [1.6]; the
    quotients [33 / 1.1], just below 30, and [8 / 1.6], which rounds up
    to 5; the script's [140 / 1.25] and [30 / 1.25]; and an integer from
    2^53 on that is not a float. *)
Example binary64_literals :
  (binary64 (11 # 10) == float_1_1)%Q ∧ (binary64 (16 # 10) == float_1_6)%Q.
Proof. split; reflexivity. Qed.

Example num_families_of_floats :
  @num_families_of (settings_with_family_size float_1_1) 33 = 29
  ∧ @num_families_of (settings_with_family_size float_1_6) 8 = 5
  ∧ @num_families_of script_settings 140 = 112
  ∧ @num_families_of script_settings 30 = 24.
Proof. repeat split; vm_compute; reflexivity. Qed.

Example float_of_int_rounds :
  float_of_int (2 ^ 53 + 3) = inject_Z (2 ^ 53 + 4)
  ∧ Qfloor (float_div (float_of_int (2 ^ 53 + 3)) 1) = 2 ^ 53 + 4.
Proof. split; vm_compute; reflexivity. Qed.

Section FamilyFacts.
Context `{Settings}.

Lemma num_families_bounds (n : nat) :
  (1 <= students_per_family)%Q →
  Z.of_nat n < 2 ^ 53 →
  0 <= num_families_of n <= Z.of_nat n.
Proof.
  intros Hspf Hn. unfold num_families_of.
  apply float_quotient_bounds; [exact Hspf | lia].
Qed.

Lemma num_families_of_0 : num_families_of 0 = 0.
Proof.
  unfold num_families_of, float_div, float_of_int. simpl.
  destruct students_per_family as [a b]. unfold binary64. simpl.
  reflexivity.
Qed.
End FamilyFacts.

Section FamilyInvariant.
Context `{Settings}.

(** C7, as the code has it: in a school whose classrooms all have
    [class_size] students, fewer than 2^53 students in all (so that their
    number is a float), with [students_per_family >= 1] and at least one
    family to draw from ([num_families >= 1], or no student at all),
    [assign_to_random_families] returns, whatever the generator draws;
    afterwards every student has a family unit, a number in
    [[0, num_families)], and the students' family units are exactly
    [num_families] distinct numbers, where [num_families] is the floor of
    the quotient of floats that the code computes.  Nothing else of the
    students is changed and nothing is printed. *)
Theorem family_invariant (s : school) (w : world) :
  Forall (λ c, length (students c) = class_size s) (classrooms s) →
  Z.of_nat (total_students s) < 2 ^ 53 →
  (1 <= students_per_family)%Q →
  1 <= num_families_of (total_students s) ∨ total_students s = 0%nat →
  ∃ s' w' fams,
    assign_to_random_families s w = Returned s' w'
    ∧ stdout w' = stdout w
    ∧ length fams = length (all_students s)
    ∧ all_students s' = zip_with assign_to_family (all_students s) fams
    ∧ Forall (λ p, ∃ fam, family_unit p = Some fam
                          ∧ 0 <= fam < num_families_of (total_students s))
             (all_students s')
    ∧ Z.of_nat (size (family_set s')) = num_families_of (total_students s).
Proof.
  intros Hfull Hsmall Hspf Hfam.
  pose proof (num_families_bounds (total_students s) Hspf Hsmall) as Hnf.
  set (nf := num_families_of (total_students s)) in *.
  destruct (append_random_returns
              (Z.to_nat (Z.of_nat (total_students s) - nf)) nf
              (seqZ 0 nf) w) as (draws & w1 & Hdraw & Hlen & Hrange & Hout1).
  { destruct Hfam as [? | Hzero]; [by left | right].
    rewrite Hzero in *. lia. }
  destruct (shuffle_Permutation (seqZ 0 nf ++ draws) w1)
    as (fams & w2 & Hshuffle & Hperm & Hout2).
  assert (length fams = length (all_students s)) as Hfams.
  { rewrite Hperm, length_app, length_seqZ, Hlen, <- total_students_length.
    lia. }
  destruct (assign_classrooms_returns (classrooms s) fams (class_size s) w2
              Hfull) as (cs' & Hassign & Hjoin).
  { rewrite Hfams. by apply all_students_full. }
  assert (family_unit <$> mjoin (students <$> cs') = Some <$> fams) as Hunits.
  { rewrite Hjoin. by apply family_unit_zip_with. }
  assert (∀ fam, fam ∈ fams ↔ 0 <= fam < nf) as Hin.
  { intros fam. rewrite Hperm, elem_of_app, elem_of_seqZ. split.
    - intros [? | Hd]; [lia |].
      by apply (proj1 (Forall_forall _ _) Hrange).
    - intros ?. left. lia. }
  exists (with_classrooms s cs'), w2, fams.
  split_and!.
  - unfold assign_to_random_families.
    destruct (Qlt_le_dec students_per_family 1) as [Hlt | _].
    { exfalso. exact (Qlt_not_le _ _ Hlt Hspf). }
    fold nf. unfold mbind, script_bind.
    by rewrite Hdraw, Hshuffle, Hassign.
  - congruence.
  - exact Hfams.
  - exact Hjoin.
  - apply Forall_forall. intros p Hp.
    assert (family_unit p ∈ Some <$> fams) as Hfp.
    { rewrite <- Hunits. apply list_elem_of_fmap. by exists p. }
    apply list_elem_of_fmap in Hfp as (fam & Hfam' & Hfam_in).
    exists fam. split; [done |]. by apply Hin.
  - rewrite family_set_students. unfold all_students. simpl.
    rewrite Hunits.
    assert (list_to_set (Some <$> fams) =@{gset (option Z)}
            list_to_set (Some <$> seqZ 0 nf)) as ->.
    { apply set_eq. intros x.
      rewrite !elem_of_list_to_set, !list_elem_of_fmap.
      split; intros (fam & -> & Hx); exists fam; split; try done.
      - apply elem_of_seqZ. apply Hin in Hx. lia.
      - apply Hin. apply elem_of_seqZ in Hx. lia. }
    rewrite size_list_to_set.
    + rewrite length_fmap, length_seqZ. lia.
    + apply (NoDup_fmap_2 Some), NoDup_seqZ.
Qed.
End FamilyInvariant.

(** C7 as stated fails with [students_per_family = 2] on a school of one
    student: [num_families] is [floor(1 / 2.0) = 0], one more family is to be
    drawn with [random.randint(0, -1)], and the call raises [ValueError]
    instead of returning. *)
Lemma family_invariant_needs_a_family :
  Forall (λ c, length (students c) = class_size one_student_school)
         (classrooms one_student_school)
  ∧ (1 <= @students_per_family (settings_with_family_size 2))%Q
  ∧ @num_families_of (settings_with_family_size 2)
      (total_students one_student_school) = 0
  ∧ @assign_to_random_families (settings_with_family_size 2)
      one_student_school quiet_world = Raised ValueError.
Proof.
  split; [repeat constructor |].
  split; [discriminate |].
  split; reflexivity.
Qed.

Lemma family_invariant_witness :
  Forall (λ c, length (students c) = class_size two_by_two_school)
         (classrooms two_by_two_school)
  ∧ Z.of_nat (total_students two_by_two_school) < 2 ^ 53
  ∧ (1 <= @students_per_family script_settings)%Q
  ∧ 1 <= @num_families_of script_settings (total_students two_by_two_school)
  ∧ ∃ s' w' fams,
      @assign_to_random_families script_settings two_by_two_school quiet_world
      = Returned s' w'
      ∧ stdout w' = stdout quiet_world
      ∧ length fams = length (all_students two_by_two_school)
      ∧ all_students s'
        = zip_with assign_to_family (all_students two_by_two_school) fams
      ∧ Forall (λ p, ∃ fam, family_unit p = Some fam
                            ∧ 0 <= fam < @num_families_of script_settings
                                           (total_students two_by_two_school))
               (all_students s')
      ∧ Z.of_nat (size (family_set s'))
        = @num_families_of script_settings (total_students two_by_two_school).
Proof.
  assert (1 <= @num_families_of script_settings
                 (total_students two_by_two_school)) as Hnf
    by (vm_compute; discriminate).
  assert (1 <= @students_per_family script_settings)%Q as Hspf
    by (unfold Qle; simpl; lia).
  assert (Z.of_nat (total_students two_by_two_school) < 2 ^ 53) as Hsmall
    by (vm_compute; reflexivity).
  split; [repeat constructor |]. split; [exact Hsmall |].
  split; [exact Hspf |]. split; [exact Hnf |].
  apply (@family_invariant script_settings two_by_two_school quiet_world).
  - repeat constructor.
  - exact Hsmall.
  - exact Hspf.
  - left. exact Hnf.
Defined.

(** *** The theorems at concrete inputs *)

(** In a classroom of one healthy student and one teacher who tests
    positive, [classroom.test] leaves [earliest_positive_test_day] unset:
    C2 as stated fails there. *)
Lemma classroom_test_misses_teacher :
  earliest_positive_test_day teacher_case = None
  ∧ (∃ m, m ∈ (students teacher_case ++ teachers teacher_case)%list
          ∧ @tests_positive script_settings m = true)
  ∧ earliest_positive_test_day
      (@classroom_test script_settings teacher_case 2) = None.
Proof.
  split; [reflexivity |]. split; [| reflexivity].
  exists (update_days_sick
            (update_days_sick (sicken (person_init "teacher_1_0" 30) 0))).
  split; [| reflexivity].
  apply list_elem_of_In. simpl. right. left. reflexivity.
Qed.

Lemma first_detection_wins_witness :
  earliest_positive_test_day detected_classroom = Some 2
  ∧ earliest_positive_test_day
      (@classroom_run script_settings detected_classroom
         [Testing 7; Members (update_days_sick
                                <$> students detected_classroom) [];
          Testing 9])
    = Some 2.
Proof.
  split; [reflexivity |].
  apply (@first_detection_wins script_settings). reflexivity.
Defined.

Lemma assign_to_random_families_rejects_witness :
  (@students_per_family (settings_with_family_size (1 # 2)) < 1)%Q
  ∧ @assign_to_random_families (settings_with_family_size (1 # 2))
      two_by_two_school quiet_world
    = Returned two_by_two_school
        {| random_source := random_source quiet_world;
           stdout := stdout quiet_world
                     ++ ["Can't have fewer than 1 student per family."] |}.
Proof.
  split; [reflexivity |].
  apply (@assign_to_random_families_rejects
           (settings_with_family_size (1 # 2))).
  reflexivity.
Defined.

Lemma aggregate_classification_witness :
  ∃ tl',
    @final_results script_settings both_infected_town no_tallies quiet_world
    = Returned tl' quiet_world
    ∧ Agg_warnings_of tl' = (0, 1, 0).
Proof.
  edestruct (@aggregate_classification script_settings both_infected_town
               no_tallies quiet_world)
    as (tl' & Hrun & Hboth & _); [reflexivity .. |].
  exists tl'. split; [exact Hrun |].
  rewrite Hboth; [reflexivity |].
  split; vm_compute; discriminate.
Defined.

Lemma weekend_spread_witness :
  (12 `mod` 7 = 5 ∨ 12 `mod` 7 = 6)
  ∧ let s := weekend_school in
    let s' := @spread_virus script_settings s 12 in
    school_name s' = school_name s
    ∧ class_size s' = class_size s
    ∧ Forall2
        (λ c c',
           number c' = number c
           ∧ teachers c' = teachers c
           ∧ earliest_positive_test_day c' = earliest_positive_test_day c
           ∧ Forall2
               (λ p p',
                  (@contagious_in script_settings (classrooms s)
                     (family_unit p) →
                     p' = sicken p 12
                     ∧ (-1 <= days_with_virus p → is_sick p' = true))
                  ∧ (¬ @contagious_in script_settings (classrooms s)
                         (family_unit p) →
                     p' = p))
               (students c) (students c'))
        (classrooms s) (classrooms s').
Proof.
  split; [left; reflexivity |].
  apply (@weekend_spread script_settings weekend_school 12).
  left. reflexivity.
Defined.

(** *** The scenarios of the specification, run on the model *)

Section Scenarios.
#[local] Existing Instance script_settings.

(** Test day 5, contagious on day 4: the result comes on day 6, after
    day 4 and before day 7. *)
Example scenario_some_warning :
  determine_agg_warnings (Some 5) 4 0 0 0 = (0, 1, 0).
Proof. reflexivity. Qed.

Example scenario_no_test (day_contagious : Z) :
  determine_agg_warnings None day_contagious 0 0 0 = (1, 0, 0).
Proof. reflexivity. Qed.

Example scenario_good_warning :
  determine_agg_warnings (Some 2) 4 0 0 0 = (0, 0, 1).
Proof. reflexivity. Qed.

(** On Saturday 12 the sibling in classroom 2 is sickened and the
    neighbour in classroom 1 is not; on Monday 14 the neighbour and the
    teacher of classroom 1 are sickened too. *)
Example scenario_weekend :
  (λ c, (λ p, (name p, days_with_virus p))
          <$> (students c ++ teachers c)%list)
    <$> classrooms (spread_virus weekend_school 12)
  = [ [("student_1_0", 5); ("student_1_1", -1); ("teacher_1_0", -1)];
      [("student_2_0", 0); ("teacher_2_0", -1)] ].
Proof. reflexivity. Qed.

Example scenario_weekday :
  (λ c, (λ p, (name p, days_with_virus p))
          <$> (students c ++ teachers c)%list)
    <$> classrooms (spread_virus weekend_school 14)
  = [ [("student_1_0", 5); ("student_1_1", 0); ("teacher_1_0", 0)];
      [("student_2_0", 0); ("teacher_2_0", -1)] ].
Proof. reflexivity. Qed.

(** The school of two classrooms of two students has
    [floor(4 / 1.25) = 3] families; with a generator that always draws 0
    the fourth student joins family 0. *)
Example scenario_families :
  match assign_to_random_families two_by_two_school quiet_world with
  | Returned s' _ => family_unit <$> all_students s'
  | Raised _ => []
  end = [Some 1; Some 2; Some 0; Some 0].
Proof. reflexivity. Qed.

(** With [students_per_family = 1.1] the school of 33 students gets the 29
    families of [floor(33 / 1.1)]. *)
Example scenario_families_float :
  match @assign_to_random_families (settings_with_family_size float_1_1)
          three_by_eleven_school quiet_world with
  | Returned s' _ => length (remove_dups (family_unit <$> all_students s'))
  | Raised _ => 0%nat
  end = 29%nat.
Proof. vm_compute. reflexivity. Qed.

(** The excluded name is that of the second student of classroom 1. *)
Example scenario_excluded :
  (λ p, (name p, str_in (name p) "student_1_1"))
    <$> take 3 (all_students two_by_two_school)
  = [("student_1_0", false); ("student_1_1", true); ("student_2_0", false)].
Proof. reflexivity. Qed.
End Scenarios.

(** ** Further properties *)

(** *** Persons *)

Lemma sicken_twice (p : person) (day day' : Z) :
  sicken (sicken p day) day' = sicken p day.
Proof.
  unfold sicken at 2 3.
  destruct (decide (days_with_virus p = -1)) as [Hv | Hv].
  - reflexivity.
  - unfold sicken. by destruct (decide (days_with_virus p = -1)).
Qed.

(** [sicken] acts once.  On a person with timer -1 it sets the timer to 0
    and [day_infected] to the day; on anybody else it does nothing, so that
    a second [sicken], on any day, keeps the day of the first infection.
    Name, age and family unit are never changed. *)
Theorem sicken_once (p : person) (day day' : Z) :
  sicken (sicken p day) day' = sicken p day
  ∧ (days_with_virus p = -1 →
     days_with_virus (sicken p day) = 0 ∧ day_infected (sicken p day) = day)
  ∧ (days_with_virus p ≠ -1 → sicken p day = p)
  ∧ name (sicken p day) = name p
  ∧ age (sicken p day) = age p
  ∧ family_unit (sicken p day) = family_unit p.
Proof.
  split; [apply sicken_twice |].
  unfold sicken.
  destruct (decide (days_with_virus p = -1)) as [Hv | Hv];
    split_and!; try done.
Qed.

(** With a timer of at least -1: the timer of a healthy person stays at -1
    and the timer of anybody else goes up by one with each
    [update_days_sick]; nothing else of the person changes. *)
Theorem timer_after_days (p : person) (n : nat) :
  -1 <= days_with_virus p →
  let p' := Nat.iter n update_days_sick p in
  days_with_virus p'
  = (if decide (days_with_virus p = -1) then -1
     else days_with_virus p + Z.of_nat n)
  ∧ name p' = name p
  ∧ age p' = age p
  ∧ day_infected p' = day_infected p
  ∧ family_unit p' = family_unit p.
Proof.
  intros Hge. induction n as [|n IH]; simpl.
  - destruct (decide (days_with_virus p = -1)); split_and!; try done; lia.
  - destruct IH as (Hv & Hn & Ha & Hd & Hf).
    set (q := Nat.iter n update_days_sick p) in *.
    revert Hv. unfold update_days_sick.
    destruct (decide (days_with_virus q ≠ -1)) as [Hq | Hq]; simpl;
      destruct (decide (days_with_virus p = -1)); intros Hv;
      split_and!; try done; lia.
Qed.

(** *** Classrooms *)

Lemma foldl_flag {A} (f : A → bool) (l : list A) (b : bool) :
  foldl (λ any x, if f x then true else any) b l = b || existsb f l.
Proof.
  revert b. induction l as [|x l IH]; intros b; simpl.
  - by rewrite orb_false_r.
  - rewrite IH. destruct (f x), b; done.
Qed.

Section ClassroomFacts.
Context `{Settings}.

(** [any_contagious_cases_in_classroom] holds exactly when some student or
    some teacher of the classroom is contagious. *)
Theorem any_contagious_cases_in_classroom_true (c : classroom) :
  any_contagious_cases_in_classroom c = true
  ↔ ∃ m, m ∈ people_of c ∧ is_contagious m = true.
Proof.
  unfold any_contagious_cases_in_classroom, people_of.
  rewrite !foldl_flag. simpl. rewrite orb_true_iff, !existsb_exists. split.
  - intros [(m & Hm & Hc) | (m & Hm & Hc)]; exists m;
      (split; [apply elem_of_app, or_comm | done]);
      [right | left]; by apply list_elem_of_In.
  - intros (m & [Hm | Hm]%elem_of_app & Hc); [left | right];
      exists m; (split; [by apply list_elem_of_In | done]).
Qed.

Lemma num_contagious_students_in_classroom_count (c : classroom) :
  num_contagious_students_in_classroom c
  = Z.of_nat (length (filter (λ p, is_contagious p = true) (students c))).
Proof.
  unfold num_contagious_students_in_classroom.
  enough (∀ ss n,
            foldl (λ num stdt, if is_contagious stdt then num + 1 else num)
                  n ss
            = n + Z.of_nat (length (filter (λ p, is_contagious p = true) ss)))
    as Hgen by (rewrite Hgen; lia).
  induction ss as [|q ss IH]; intros n; simpl; [lia |].
  rewrite IH, filter_cons. destruct (is_contagious q) eqn:Hq.
  - rewrite decide_True by done. simpl. lia.
  - rewrite decide_False by done. lia.
Qed.

(** [total_students_contagious] is the number of contagious students of the
    school, the sum of [num_contagious_students_in_classroom] over its
    classrooms; teachers are not counted. *)
Theorem total_students_contagious_count (s : school) :
  total_students_contagious s
  = Z.of_nat (length (filter (λ p, is_contagious p = true) (all_students s)))
  ∧ total_students_contagious s
    = foldr (λ c n, num_contagious_students_in_classroom c + n) 0
            (classrooms s).
Proof.
  unfold total_students_contagious, all_students.
  assert (∀ cs n,
            foldl (λ total clrm,
                     total + num_contagious_students_in_classroom clrm) n cs
            = n + foldr (λ c n, num_contagious_students_in_classroom c + n)
                        0 cs) as Hsum.
  { induction cs as [|c cs IH]; intros n; simpl; [lia |].
    rewrite IH. lia. }
  split; [| rewrite Hsum; lia].
  rewrite Hsum. simpl.
  induction (classrooms s) as [|c cs IH]; [done |].
  rewrite join_students_cons, filter_app, length_app. simpl.
  rewrite num_contagious_students_in_classroom_count. lia.
Qed.
End ClassroomFacts.

(** [sicken_all] a second time, on the same or on a later day, changes
    nothing; after it every member whose timer was at least -1 is sick. *)
Theorem sicken_all_twice (c : classroom) (day day' : Z) :
  sicken_all (sicken_all c day) day' = sicken_all c day
  ∧ Forall2 (λ p p', p' = sicken p day
                     ∧ (-1 <= days_with_virus p → is_sick p' = true))
            (people_of c) (people_of (sicken_all c day)).
Proof.
  split.
  - unfold sicken_all. simpl. f_equal;
      rewrite <- list_fmap_compose; apply list_fmap_ext; intros _ p _;
      apply sicken_twice.
  - unfold people_of, sicken_all. simpl. rewrite <- fmap_app.
    apply Forall2_fmap_r, Forall_Forall2_diag, Forall_forall.
    intros p _. split; [done |]. apply sicken_is_sick.
Qed.

(** *** Building a school *)

Lemma init_classrooms_returns (indices : list nat) (class_size : nat)
    (ages_list : list Z) (teachers_per_class : nat) (w : world) :
  Forall (λ i, (i < length ages_list)%nat) indices →
  ∃ cs,
    init_classrooms indices class_size ages_list teachers_per_class w
    = Returned cs w
    ∧ Forall2 (λ i c, ∃ a, ages_list !! i = Some a
                           ∧ c = classroom_init (Z.of_nat i + 1) class_size a
                                   teachers_per_class)
              indices cs.
Proof.
  induction 1 as [|i indices Hi _ (cs & Hrec & Hcs)].
  - exists []. by split.
  - apply lookup_lt_is_Some_2 in Hi as [a Ha].
    exists (classroom_init (Z.of_nat i + 1) class_size a teachers_per_class
              :: cs).
    simpl. rewrite Ha. unfold mbind, script_bind. rewrite Hrec.
    split; [done |]. constructor; [by exists a | done].
Qed.

Lemma init_classrooms_raises (indices : list nat) (class_size : nat)
    (ages_list : list Z) (teachers_per_class : nat) (w : world) :
  Exists (λ i, (length ages_list <= i)%nat) indices →
  init_classrooms indices class_size ages_list teachers_per_class w
  = Raised IndexError.
Proof.
  induction 1 as [i indices Hi | i indices _ IH]; simpl.
  - by rewrite (lookup_ge_None_2 _ _ Hi).
  - destruct (ages_list !! i); [| done].
    unfold mbind, script_bind. by rewrite IH.
Qed.

(** [school(...)] raises [IndexError] when [ages_list] has fewer entries
    than there are classrooms. *)
Theorem school_init_short_ages_list (name : string)
    (num_classrooms class_size : nat) (ages_list : list Z)
    (teachers_per_class : nat) (w : world) :
  (length ages_list < num_classrooms)%nat →
  school_init name num_classrooms class_size ages_list teachers_per_class w
  = Raised IndexError.
Proof.
  intros Hlen. unfold school_init, mbind, script_bind.
  rewrite init_classrooms_raises; [done |].
  apply Exists_exists. exists (length ages_list).
  split; [apply elem_of_seq; lia | lia].
Qed.

Lemma total_people_length (s : school) :
  total_people s = length (all_people s).
Proof.
  unfold total_people, all_people.
  enough (∀ cs n,
            foldl (λ total clrm,
                     (total + (length (students clrm)
                               + length (teachers clrm)))%nat) n cs
            = (n + length (mjoin (people_of <$> cs)))%nat) as Hgen
    by apply Hgen.
  induction cs as [|c cs IH]; intros n; csimpl.
  - lia.
  - rewrite IH. unfold people_of at 2. rewrite !length_app. lia.
Qed.

Lemma school_init_built (nm : string) (num_classrooms size : nat)
    (ages_list : list Z) (teachers_per_class : nat) (w : world) :
  (num_classrooms <= length ages_list)%nat →
  ∃ s,
    school_init nm num_classrooms size ages_list teachers_per_class w
    = Returned s w
    ∧ school_name s = nm
    ∧ class_size s = size
    ∧ number <$> classrooms s
      = (λ i, Z.of_nat i + 1) <$> seq 0 num_classrooms
    ∧ Forall (λ c, length (students c) = size
                   ∧ length (teachers c) = teachers_per_class
                   ∧ earliest_positive_test_day c = None) (classrooms s)
    ∧ Forall (λ p, days_with_virus p = -1 ∧ day_infected p = 1000000
                   ∧ family_unit p = None) (all_people s)
    ∧ total_students s = (num_classrooms * size)%nat
    ∧ total_people s = (num_classrooms * (size + teachers_per_class))%nat.
Proof.
  intros Hlen.
  destruct (init_classrooms_returns (seq 0 num_classrooms) size ages_list
              teachers_per_class w) as (cs & Hrun & Hcs).
  { apply Forall_seq. intros. lia. }
  exists {| school_name := nm; classrooms := cs; class_size := size |}.
  assert (Forall (λ c, length (students c) = size
                       ∧ length (teachers c) = teachers_per_class
                       ∧ earliest_positive_test_day c = None) cs) as Hshape.
  { apply Forall_forall. intros c Hc.
    apply list_elem_of_lookup in Hc as [k Hk].
    destruct (Forall2_lookup_r _ _ _ _ _ Hcs Hk) as (i & _ & a & _ & ->).
    simpl. by rewrite !length_fmap, !length_seq. }
  assert (length cs = num_classrooms) as Hcount.
  { rewrite <- (Forall2_length _ _ _ Hcs). apply length_seq. }
  split_and!.
  - unfold school_init, mbind, script_bind. by rewrite Hrun.
  - done.
  - done.
  - simpl. clear Hshape Hcount Hrun.
    induction Hcs as [|i c indices cs (a & _ & ->) _ IH]; [done |].
    csimpl. by rewrite IH.
  - exact Hshape.
  - unfold all_people. simpl. apply Forall_join, Forall_fmap, Forall_forall.
    intros c Hc. apply list_elem_of_lookup in Hc as [k Hk].
    destruct (Forall2_lookup_r _ _ _ _ _ Hcs Hk) as (i & _ & a & _ & ->).
    unfold compose, people_of. simpl. apply Forall_app.
    split; apply Forall_fmap, Forall_forall; by intros.
  - rewrite total_students_length. unfold all_students. simpl.
    rewrite (all_students_full cs size), Hcount; [done |].
    eapply Forall_impl; [exact Hshape |]. by intros c (? & _).
  - rewrite total_people_length. unfold all_people. simpl.
    rewrite <- Hcount. clear Hcs Hcount Hrun.
    induction Hshape as [|c cs (Hs & Ht & _) _ IH]; [done |].
    csimpl. unfold people_of at 1. rewrite !length_app, IH, Hs, Ht. lia.
Qed.

(** With an age for every classroom, [school(...)] returns a school of
    [num_classrooms] classrooms numbered from 1, each with [class_size]
    students and [teachers_per_class] teachers and without a test day;
    everybody is healthy and in no family. *)
Theorem school_init_returns (nm : string) (num_classrooms size : nat)
    (ages_list : list Z) (teachers_per_class : nat) (w : world) :
  (num_classrooms <= length ages_list)%nat →
  ∃ s,
    school_init nm num_classrooms size ages_list teachers_per_class w
    = Returned s w
    ∧ number <$> classrooms s
      = (λ i, Z.of_nat i + 1) <$> seq 0 num_classrooms
    ∧ Forall (λ c, length (students c) = size
                   ∧ length (teachers c) = teachers_per_class
                   ∧ earliest_positive_test_day c = None) (classrooms s)
    ∧ Forall (λ p, days_with_virus p = -1 ∧ day_infected p = 1000000
                   ∧ family_unit p = None) (all_people s)
    ∧ total_students s = (num_classrooms * size)%nat
    ∧ total_people s = (num_classrooms * (size + teachers_per_class))%nat.
Proof.
  intros Hlen.
  destruct (school_init_built nm num_classrooms size ages_list
              teachers_per_class w Hlen)
    as (s & Hrun & _ & _ & Hnum & Hshape & Hfresh & Hstudents & Hpeople).
  exists s. by split_and!.
Qed.

Lemma school_init_returns_witness :
  (2 <= length [5; 5; 5])%nat
  ∧ ∃ s,
      school_init "small" 2 2 [5; 5; 5] 1 quiet_world = Returned s quiet_world
      ∧ total_people s = 6%nat.
Proof.
  split; [simpl; lia |].
  destruct (school_init_returns "small" 2 2 [5; 5; 5] 1 quiet_world)
    as (s & Hs & _ & _ & _ & _ & Hp); [simpl; lia |].
  exists s. split; [exact Hs | exact Hp].
Defined.

Lemma school_init_short_ages_list_witness :
  (length [5] < 2)%nat
  ∧ school_init "small" 2 2 [5] 1 quiet_world = Raised IndexError.
Proof.
  split; [simpl; lia |].
  apply school_init_short_ages_list. simpl. lia.
Defined.

(** *** Counting and querying the members of a school *)

(** [total_people] and [total_students] are the lengths of the flattened
    lists of members, so that the students are among the people counted. *)
Theorem total_people_counts (s : school) :
  total_people s = length (all_people s)
  ∧ total_students s = length (all_students s)
  ∧ (total_students s <= total_people s)%nat.
Proof.
  split; [apply total_people_length |].
  split; [apply total_students_length |].
  rewrite total_people_length, total_students_length.
  unfold all_people, all_students.
  induction (classrooms s) as [|c cs IH]; csimpl; [done |].
  unfold people_of at 1. rewrite !length_app. lia.
Qed.

(** [any_school_cases] holds exactly when some student or teacher of the
    school is sick. *)
Theorem any_school_cases_true (s : school) :
  any_school_cases s = true ↔ ∃ p, p ∈ all_people s ∧ is_sick p = true.
Proof.
  unfold any_school_cases, all_people.
  enough (∀ cs b,
            foldl (λ any_cases clrm,
                     let any_cases :=
                       foldl (λ any stdt, if is_sick stdt then true else any)
                             any_cases (students clrm) in
                     foldl (λ any teach, if is_sick teach then true else any)
                           any_cases (teachers clrm)) b cs = true
            ↔ b = true ∨ ∃ p, p ∈ mjoin (people_of <$> cs) ∧ is_sick p = true)
    as Hgen.
  { rewrite Hgen. split; [intros [? | ?]; done | by right]. }
  induction cs as [|c cs IH]; intros b; csimpl.
  - split; [by left |]. intros [? | (p & Hp & _)]; [done |].
    by apply elem_of_nil in Hp.
  - rewrite IH, !foldl_flag, !orb_true_iff, !existsb_exists.
    unfold people_of at 2. split.
    + intros [[[? | (p & Hp & ?)] | (p & Hp & ?)] | (p & Hp & ?)].
      * by left.
      * right. exists p. split; [| done].
        apply elem_of_app. left. apply elem_of_app. left.
        by apply list_elem_of_In.
      * right. exists p. split; [| done].
        apply elem_of_app. left. apply elem_of_app. right.
        by apply list_elem_of_In.
      * right. exists p. split; [| done]. apply elem_of_app. by right.
    + intros [? | (p & [[Hp | Hp]%elem_of_app | Hp]%elem_of_app & ?)].
      * by left; left; left.
      * left; left; right. exists p. by rewrite <- list_elem_of_In.
      * left; right. exists p. by rewrite <- list_elem_of_In.
      * right. by exists p.
Qed.

Section QueryFacts.
Context `{Settings}.

Lemma any_contagious_other_numbers (cs : list classroom) (n : Z) (b : bool) :
  n ∉ number <$> cs →
  foldl (λ any_cases clrm,
           if decide (number clrm = n)
           then any_contagious_cases_in_classroom clrm else any_cases) b cs
  = b.
Proof.
  revert b. induction cs as [|c cs IH]; intros b Hn; csimpl; [done |].
  rewrite fmap_cons, not_elem_of_cons in Hn. destruct Hn as [Hc Hcs].
  rewrite decide_False by done. by apply IH.
Qed.

(** [school.any_contagious_cases_in_classroom(classrm)] is [False] for a
    number that no classroom has; when the classrooms have distinct
    numbers, it is the answer of the classroom with that number. *)
Theorem school_any_contagious_cases_in_classroom_by_number (s : school)
    (classrm : Z) :
  (classrm ∉ number <$> classrooms s →
     school_any_contagious_cases_in_classroom s classrm = false)
  ∧ (NoDup (number <$> classrooms s) →
     ∀ c, c ∈ classrooms s → number c = classrm →
       school_any_contagious_cases_in_classroom s classrm
       = any_contagious_cases_in_classroom c).
Proof.
  unfold school_any_contagious_cases_in_classroom. split.
  - apply any_contagious_other_numbers.
  - intros Hnodup c Hc Hnum.
    apply list_elem_of_split in Hc as (l1 & l2 & Hsplit).
    rewrite Hsplit in *. rewrite foldl_app. simpl.
    rewrite decide_True by done.
    apply any_contagious_other_numbers.
    rewrite fmap_app, fmap_cons in Hnodup.
    apply NoDup_app in Hnodup as (_ & _ & Hl2).
    apply NoDup_cons in Hl2 as [Hl2 _]. by rewrite <- Hnum.
Qed.
End QueryFacts.

(** *** Reaching the [x]th person of a school *)

Lemma with_students_same (c : classroom) : with_students c (students c) = c.
Proof. by destruct c. Qed.

Lemma same_rooms_refl (cs : list classroom) : same_rooms cs cs.
Proof. apply Forall_Forall2_diag, Forall_forall. by intros. Qed.

Lemma scan_people_spec (ps : list person) (p x : Z) (exclude_list : string)
    (day : Z) :
  match scan_people ps p x exclude_list day with
  | Hit b ps' =>
      ∃ k q, x = p + 1 + Z.of_nat k
             ∧ ps !! k = Some q
             ∧ b = seeding_verdict exclude_list q
             ∧ ps' = (if b then <[k := sicken q day]> ps else ps)
  | Miss p' =>
      p' = p + Z.of_nat (length ps)
      ∧ ¬ (p < x <= p + Z.of_nat (length ps))
  end.
Proof.
  revert p. induction ps as [|q ps IH]; intros p; simpl.
  - split; lia.
  - destruct (decide (p + 1 = x)) as [Hx | Hx].
    + unfold seeding_verdict.
      destruct (str_in (name q) exclude_list) eqn:Hin,
               (is_sick q) eqn:Hsick; simpl;
        exists 0%nat, q; rewrite Hin, Hsick; split_and!; try done; lia.
    + specialize (IH (p + 1)).
      destruct (scan_people ps (p + 1) x exclude_list day) as [b ps' | p'].
      * destruct IH as (k & q' & Hk & Hq' & Hb & Hps').
        exists (S k), q'. split_and!; [lia | done | done |].
        rewrite Hps'. by destruct b.
      * destruct IH as [-> Hout]. split; lia.
Qed.

Lemma join_people_cons (c : classroom) (cs : list classroom) :
  mjoin (people_of <$> c :: cs)
  = ((students c ++ teachers c) ++ mjoin (people_of <$> cs))%list.
Proof. reflexivity. Qed.

Lemma scan_classrooms_spec (cs : list classroom) (p x : Z)
    (exclude_list : string) (day : Z) :
  match scan_classrooms cs p x exclude_list day with
  | Hit b cs' =>
      ∃ k q, x = p + 1 + Z.of_nat k
             ∧ mjoin (people_of <$> cs) !! k = Some q
             ∧ b = seeding_verdict exclude_list q
             ∧ mjoin (people_of <$> cs')
               = (if b then <[k := sicken q day]> (mjoin (people_of <$> cs))
                  else mjoin (people_of <$> cs))
             ∧ same_rooms cs cs'
             ∧ (b = false → cs' = cs)
  | Miss p' =>
      p' = p + Z.of_nat (length (mjoin (people_of <$> cs)))
      ∧ ¬ (p < x <= p + Z.of_nat (length (mjoin (people_of <$> cs))))
  end.
Proof.
  revert p. induction cs as [|c cs IH]; intros p.
  - simpl. split; lia.
  - cbn [scan_classrooms].
    pose proof (scan_people_spec (students c) p x exclude_list day) as Hss.
    destruct (scan_people (students c) p x exclude_list day) as [b ss | p1].
    { destruct Hss as (k & q & Hk & Hq & Hb & Hss).
      apply lookup_lt_Some in Hq as Hlt.
      exists k, q. rewrite !join_people_cons.
      cbn [with_students students teachers]. split_and!.
      - done.
      - by apply lookup_app_l_Some, lookup_app_l_Some.
      - done.
      - rewrite Hss. destruct b; [| done].
        rewrite !insert_app_l; [done | lia | rewrite length_app; lia].
      - constructor; [| apply same_rooms_refl]. simpl. rewrite Hss.
        split_and!; try done. destruct b; [| done]. apply length_insert.
      - intros ->. rewrite Hss. by rewrite with_students_same. }
    destruct Hss as [-> Hout1].
    pose proof (scan_people_spec (teachers c)
                  (p + Z.of_nat (length (students c))) x exclude_list day)
      as Hts.
    destruct (scan_people (teachers c) (p + Z.of_nat (length (students c)))
                x exclude_list day) as [b ts | p2].
    { destruct Hts as (k & q & Hk & Hq & Hb & Hts).
      apply lookup_lt_Some in Hq as Hlt.
      exists (length (students c) + k)%nat, q. rewrite !join_people_cons.
      cbn [students teachers]. split_and!.
      - lia.
      - rewrite lookup_app_l by (rewrite length_app; lia).
        rewrite lookup_app_r by lia.
        by replace (length (students c) + k - length (students c))%nat
          with k by lia.
      - done.
      - rewrite Hts. destruct b; [| done].
        rewrite insert_app_l by (rewrite length_app; lia).
        rewrite insert_app_r_alt by lia.
        by replace (length (students c) + k - length (students c))%nat
          with k by lia.
      - constructor; [| apply same_rooms_refl]. simpl. rewrite Hts.
        split_and!; try done. destruct b; [| done]. apply length_insert.
      - intros ->. rewrite Hts. by destruct c. }
    destruct Hts as [-> Hout2].
    specialize (IH (p + Z.of_nat (length (students c))
                    + Z.of_nat (length (teachers c)))).
    destruct (scan_classrooms cs _ x exclude_list day) as [b cs' | p3].
    { destruct IH as (k & q & Hk & Hq & Hb & Hflat & Hsame & Hfalse).
      exists (length (students c ++ teachers c) + k)%nat, q.
      rewrite !join_people_cons.
      assert (length (students c ++ teachers c)
              = (length (students c) + length (teachers c))%nat) as Hlen
        by apply length_app.
      split_and!.
      - lia.
      - rewrite lookup_app_r by lia. rewrite <- Hq. f_equal. lia.
      - done.
      - rewrite Hflat. destruct b; [| done].
        rewrite insert_app_r_alt by lia. do 2 f_equal. lia.
      - constructor; [done | exact Hsame].
      - intros Hb'. by rewrite Hfalse. }
    destruct IH as [-> Hout3].
    rewrite join_people_cons, !length_app. split; lia.
Qed.

Lemma scan_classrooms_hit (cs : list classroom) (k : nat) (q : person)
    (exclude_list : string) (day : Z) :
  mjoin (people_of <$> cs) !! k = Some q →
  ∃ cs',
    scan_classrooms cs (-1) (Z.of_nat k) exclude_list day
    = Hit (seeding_verdict exclude_list q) cs'
    ∧ mjoin (people_of <$> cs')
      = (if seeding_verdict exclude_list q
         then <[k := sicken q day]> (mjoin (people_of <$> cs))
         else mjoin (people_of <$> cs))
    ∧ same_rooms cs cs'
    ∧ (seeding_verdict exclude_list q = false → cs' = cs).
Proof.
  intros Hq.
  pose proof (scan_classrooms_spec cs (-1) (Z.of_nat k) exclude_list day)
    as Hscan.
  destruct (scan_classrooms cs (-1) (Z.of_nat k) exclude_list day)
    as [b cs' | p'].
  - destruct Hscan as (k' & q' & Hk & Hq' & Hb & Hflat & Hsame & Hfalse).
    assert (k' = k) as -> by lia.
    rewrite Hq in Hq'. injection Hq' as <-. subst b. by exists cs'.
  - destruct Hscan as [_ Hout]. apply lookup_lt_Some in Hq. lia.
Qed.

Lemma scan_classrooms_miss (cs : list classroom) (x : Z)
    (exclude_list : string) (day : Z) :
  x < 0 ∨ Z.of_nat (length (mjoin (people_of <$> cs))) <= x →
  ∃ p', scan_classrooms cs (-1) x exclude_list day = Miss p'.
Proof.
  intros Hx.
  pose proof (scan_classrooms_spec cs (-1) x exclude_list day) as Hscan.
  destruct (scan_classrooms cs (-1) x exclude_list day) as [b cs' | p'].
  - destruct Hscan as (k & q' & Hk & Hq' & _).
    apply lookup_lt_Some in Hq'. lia.
  - by exists p'.
Qed.

(** For a number [x] that addresses a person, [sicken_xth_person] prints
    nothing and returns a boolean.  The person is the [x]th in the order
    classroom by classroom, students before teachers.  The call returns
    [True] and sickens that person exactly when the person's name does not
    occur in the exclude list and the person is not sick; otherwise it
    returns [False] and the school is what it was. *)
Theorem sicken_xth_person_in_range (s : school) (x : nat) (q : person)
    (exclude_list : string) (day : Z) (w : world) :
  all_people s !! x = Some q →
  ∃ s',
    sicken_xth_person s (Z.of_nat x) exclude_list day w
    = Returned (Some (seeding_verdict exclude_list q), s') w
    ∧ all_people s'
      = (if seeding_verdict exclude_list q
         then <[x := sicken q day]> (all_people s) else all_people s)
    ∧ same_rooms (classrooms s) (classrooms s')
    ∧ school_name s' = school_name s
    ∧ class_size s' = class_size s
    ∧ (seeding_verdict exclude_list q = false → s' = s).
Proof.
  intros Hq. unfold sicken_xth_person.
  destruct (scan_classrooms_hit (classrooms s) x q exclude_list day Hq)
    as (cs' & -> & Hflat & Hsame & Hfalse).
  exists (with_classrooms s cs'). split_and!; try done.
  intros Hb. rewrite (Hfalse Hb). by destruct s.
Qed.

(** For a number [x] that addresses nobody, below 0 or from the number of
    people on, [sicken_xth_person] prints its error message and returns
    [None]; the school is what it was. *)
Theorem sicken_xth_person_out_of_range (s : school) (x : Z)
    (exclude_list : string) (day : Z) (w : world) :
  x < 0 ∨ Z.of_nat (total_people s) <= x →
  sicken_xth_person s x exclude_list day w
  = Returned (None, s)
      {| random_source := random_source w;
         stdout := stdout w
                   ++ ["Error - there are not " ++ str x
                       ++ " applicable people in school"] |}.
Proof.
  intros Hx. rewrite total_people_length in Hx. unfold sicken_xth_person.
  by destruct (scan_classrooms_miss (classrooms s) x exclude_list day Hx)
    as [p' ->].
Qed.

(** *** Spreading on any day *)

Lemma only_sickened_trans (day : Z) (p p' p'' : person) :
  only_sickened day p p' → only_sickened day p' p'' → only_sickened day p p''.
Proof.
  intros [-> | ->] [-> | ->]; unfold only_sickened; rewrite ?sicken_twice;
    auto.
Qed.

Lemma only_sickened_sick (day : Z) (p p' : person) :
  only_sickened day p p' → is_sick p = true → p' = p.
Proof. intros [-> | ->] Hsick; [done | by apply sicken_sick]. Qed.

Section SpreadAnyDay.
Context `{Settings}.

Lemma spread_classrooms_lookup (s : school) (day : Z) (i : nat)
    (c : classroom) :
  classrooms s !! i = Some c →
  classrooms (spread_virus s day) !! i
  = Some (spread_in_families day
            (contagious_families
               (if negb (bool_decide (day `mod` 7 ∈ [5; 6]))
                then spread_in_classroom day <$> classrooms s
                else classrooms s))
            (if negb (bool_decide (day `mod` 7 ∈ [5; 6]))
             then spread_in_classroom day c else c)).
Proof.
  intros Hc. unfold spread_virus. simpl.
  destruct (negb (bool_decide (day `mod` 7 ∈ [5; 6])));
    rewrite !list_lookup_fmap, Hc; done.
Qed.

Lemma spread_virus_rooms (s : school) (day : Z) :
  Forall2
    (λ c c',
       number c' = number c
       ∧ earliest_positive_test_day c' = earliest_positive_test_day c
       ∧ Forall2 (only_sickened day) (students c) (students c')
       ∧ Forall2 (only_sickened day) (teachers c) (teachers c'))
    (classrooms s) (classrooms (spread_virus s day)).
Proof.
  apply Forall2_same_length_lookup. split.
  { unfold spread_virus. simpl.
    destruct (negb (bool_decide (day `mod` 7 ∈ [5; 6])));
      by rewrite !length_fmap. }
  intros i c c' Hc Hc'.
  rewrite (spread_classrooms_lookup s day i c Hc) in Hc'.
  injection Hc' as <-.
  set (fams := contagious_families _). clearbody fams.
  assert (∀ ps : list person,
            Forall2 (only_sickened day) ps ps) as Hsame.
  { intros ps. apply Forall_Forall2_diag, Forall_forall. by left. }
  assert (∀ ps : list person,
            Forall2 (only_sickened day) ps ((λ p, sicken p day) <$> ps))
    as Hsick.
  { intros ps. apply Forall2_fmap_r, Forall_Forall2_diag, Forall_forall.
    by right. }
  assert (∀ ps : list person,
            Forall2 (only_sickened day) ps
              ((λ stdt, if decide (family_unit stdt ∈ fams)
                        then sicken stdt day else stdt) <$> ps)) as Hfam.
  { intros ps. apply Forall2_fmap_r, Forall_Forall2_diag, Forall_forall.
    intros p _. unfold compose. case_decide; [by right | by left]. }
  destruct (negb (bool_decide (day `mod` 7 ∈ [5; 6]))); simpl;
    [| by split_and!].
  unfold spread_in_classroom.
  destruct (negb (offline c day)), (any_contagious_cases_in_classroom c);
    simpl; split_and!; try done.
  eapply Forall2_trans; [| apply Hsick | apply Hfam].
  intros ???. apply only_sickened_trans.
Qed.

(** [spread_virus] does nothing but sicken: the classrooms keep their
    numbers and test days, every student and teacher is either unchanged or
    the result of [sicken] on that day, and whoever was sick is
    unchanged. *)
Theorem spread_virus_only_sickens (s : school) (day : Z) :
  let s' := spread_virus s day in
  school_name s' = school_name s
  ∧ class_size s' = class_size s
  ∧ Forall2
      (λ c c',
         number c' = number c
         ∧ earliest_positive_test_day c' = earliest_positive_test_day c
         ∧ Forall2 (λ p p', only_sickened day p p'
                            ∧ (is_sick p = true → p' = p))
                   (people_of c) (people_of c'))
      (classrooms s) (classrooms s').
Proof.
  cbv zeta. split; [done |]. split; [done |].
  eapply Forall2_impl; [apply spread_virus_rooms |].
  intros c c' (Hn & He & Hss & Hts). split_and!; try done.
  unfold people_of. apply Forall2_app;
    (eapply Forall2_impl; [eassumption |]); intros p p' Hp;
    (split; [done | by apply (only_sickened_sick day)]).
Qed.

(** On a day with [day % 7] other than 5 and 6, in a classroom that is not
    offline and has a contagious member, [spread_virus] sickens every
    student and every teacher of the classroom. *)
Theorem weekday_spread_in_classroom (s : school) (day : Z) (i : nat)
    (c : classroom) :
  ¬ (day `mod` 7 = 5 ∨ day `mod` 7 = 6) →
  classrooms s !! i = Some c →
  offline c day = false →
  any_contagious_cases_in_classroom c = true →
  ∃ c', classrooms (spread_virus s day) !! i = Some c'
        ∧ students c' = (λ p, sicken p day) <$> students c
        ∧ teachers c' = (λ p, sicken p day) <$> teachers c.
Proof.
  intros Hday Hc Hoff Hany. eexists.
  split; [by apply spread_classrooms_lookup |].
  assert (bool_decide (day `mod` 7 ∈ [5; 6]) = false) as ->.
  { apply bool_decide_eq_false. set_unfold. lia. }
  simpl. unfold spread_in_classroom. rewrite Hoff, Hany. simpl.
  split; [| done].
  rewrite <- list_fmap_compose. apply list_fmap_ext. intros _ p _.
  unfold compose. case_decide; [apply sicken_twice | done].
Qed.

(** In a classroom that is offline, or that has no contagious member, or on
    a day with [day % 7] equal to 5 or 6, [spread_virus] leaves the
    teachers as they are. *)
Theorem spread_virus_keeps_teachers (s : school) (day : Z) (i : nat)
    (c : classroom) :
  classrooms s !! i = Some c →
  (day `mod` 7 = 5 ∨ day `mod` 7 = 6) ∨ offline c day = true
  ∨ any_contagious_cases_in_classroom c = false →
  ∃ c', classrooms (spread_virus s day) !! i = Some c'
        ∧ teachers c' = teachers c.
Proof.
  intros Hc Hwhy. eexists. split; [by apply spread_classrooms_lookup |].
  simpl. destruct (negb (bool_decide (day `mod` 7 ∈ [5; 6]))) eqn:Hday;
    [| done].
  unfold spread_in_classroom.
  destruct Hwhy as [Hweekend | [-> | ->]]; simpl; [| done |].
  - apply negb_true_iff, bool_decide_eq_false in Hday.
    exfalso. apply Hday. destruct Hweekend as [-> | ->]; set_solver.
  - by destruct (negb (offline c day)).
Qed.
End SpreadAnyDay.

(** *** Testing and going offline *)

Section TestAgain.
Context `{Settings}.

Lemma classroom_test_twice (c : classroom) (day day' : Z) :
  classroom_test (classroom_test c day) day' = classroom_test c day.
Proof.
  unfold classroom_test. simpl. f_equal.
  destruct (earliest_positive_test_day c) as [t|].
  - by rewrite !foldl_test_student_set.
  - rewrite foldl_test_student_unset.
    destruct (existsb tests_positive (students c)) eqn:Hpos.
    + apply foldl_test_student_set.
    + by rewrite foldl_test_student_unset, Hpos.
Qed.

Lemma school_test_members (s : school) (day : Z) :
  all_people (school_test s day) = all_people s
  ∧ all_students (school_test s day) = all_students s.
Proof.
  unfold all_people, all_students, school_test. simpl.
  by rewrite <- !list_fmap_compose.
Qed.

(** [school.test] leaves every member as it is, and a second test, on the
    same or on another day, before the members change, records nothing
    new. *)
Theorem school_test_twice (s : school) (day day' : Z) :
  all_people (school_test s day) = all_people s
  ∧ school_test (school_test s day) day' = school_test s day.
Proof.
  split.
  - apply school_test_members.
  - unfold school_test. simpl. f_equal.
    rewrite <- list_fmap_compose. apply list_fmap_ext. intros _ c _.
    apply classroom_test_twice.
Qed.

(** A classroom without a test day in which some student tests positive on
    [day] is offline exactly on the days after [day + test_lag]. *)
Theorem offline_after_positive_test (c : classroom) (day day' : Z) :
  earliest_positive_test_day c = None →
  (∃ stdt, stdt ∈ students c ∧ tests_positive stdt = true) →
  offline (classroom_test c day) day' = true ↔ day + test_lag < day'.
Proof.
  intros Hnone (stdt & Hin & Hpos). unfold offline.
  simpl. rewrite Hnone, foldl_test_student_unset.
  assert (existsb tests_positive (students c) = true) as ->.
  { apply existsb_exists. exists stdt. by rewrite <- list_elem_of_In. }
  case_decide; split; intros; try done; lia.
Qed.

(** A classroom without a test day in which no student tests positive
    stays without a test day, and so is not offline on any day. *)
Theorem online_after_negative_test (c : classroom) (day day' : Z) :
  earliest_positive_test_day c = None →
  (∀ stdt, stdt ∈ students c → tests_positive stdt = false) →
  earliest_positive_test_day (classroom_test c day) = None
  ∧ offline (classroom_test c day) day' = false.
Proof.
  intros Hnone Hneg.
  assert (earliest_positive_test_day (classroom_test c day) = None) as He.
  { simpl. rewrite Hnone, foldl_test_student_unset.
    destruct (existsb tests_positive (students c)) eqn:Hpos; [| done].
    apply existsb_exists in Hpos as (stdt & Hin & Hpos).
    apply list_elem_of_In in Hin. by rewrite (Hneg stdt Hin) in Hpos. }
  split; [exact He |]. unfold offline. by rewrite He.
Qed.
End TestAgain.

(** *** Seeding the town *)

Lemma alter_as_insert {A} (f : A → A) (l : list A) (i : nat) (x : A) :
  l !! i = Some x → alter f i l = <[i := f x]> l.
Proof.
  intros Hx. apply list_eq. intros j.
  rewrite list_lookup_alter, list_lookup_insert.
  apply lookup_lt_Some in Hx as Hlt.
  destruct (decide (i = j)) as [<- | Hne].
  - rewrite Hx. simpl. by rewrite decide_True.
  - rewrite decide_False; [done |]. by intros [? _].
Qed.

Lemma seed_hit (day : Z) (i : nat) (q : person) (t : town) (w : world) :
  everybody t !! i = Some q →
  ∃ t',
    seed day i t w = Returned t' w
    ∧ everybody t'
      = (if bool_decide (i < length (other_residents t))%nat
            || seeding_verdict "student_1_1" q
         then <[i := sicken q day]> (everybody t) else everybody t)
    ∧ length (other_residents t') = length (other_residents t)
    ∧ same_rooms (classrooms (S1_school t)) (classrooms (S1_school t'))
    ∧ same_rooms (classrooms (S2_school t)) (classrooms (S2_school t')).
Proof.
  intros Hq. unfold seed, everybody in *.
  rewrite (total_people_length (S1_school t)).
  set (n0 := length (other_residents t)) in *.
  set (n1 := length (all_people (S1_school t))) in *.
  destruct (decide (i < n0)%nat) as [Hi0 | Hi0].
  { rewrite lookup_app_l in Hq by done.
    eexists. split; [reflexivity |]. cbn [other_residents S1_school S2_school].
    rewrite bool_decide_eq_true_2 by done. simpl.
    rewrite (alter_as_insert _ _ _ _ Hq), insert_app_l by done.
    split_and!; [done | apply length_insert | apply same_rooms_refl
                | apply same_rooms_refl]. }
  rewrite bool_decide_eq_false_2 by done. simpl.
  rewrite lookup_app_r in Hq by lia. fold n0 in Hq.
  destruct (decide (i < n0 + n1)%nat) as [Hi1 | Hi1].
  { rewrite lookup_app_l in Hq by (fold n1; lia).
    replace (Z.of_nat i - Z.of_nat n0) with (Z.of_nat (i - n0)) by lia.
    unfold sicken_xth_person, all_people in *.
    destruct (scan_classrooms_hit (classrooms (S1_school t)) (i - n0) q
                "student_1_1" day Hq) as (cs' & -> & Hflat & Hsame & _).
    eexists. split; [reflexivity |]. cbn [other_residents S1_school S2_school].
    split_and!; [| done | done | apply same_rooms_refl].
    simpl. rewrite Hflat. destruct (seeding_verdict "student_1_1" q); [| done].
    rewrite insert_app_r_alt by (fold n0; lia). fold n0.
    by rewrite insert_app_l by (fold n1; lia). }
  rewrite lookup_app_r in Hq by (fold n1; lia). fold n1 in Hq.
  replace (Z.of_nat i - Z.of_nat n0 - Z.of_nat n1)
    with (Z.of_nat (i - n0 - n1)) by lia.
  unfold sicken_xth_person, all_people in *.
  destruct (scan_classrooms_hit (classrooms (S2_school t)) (i - n0 - n1) q
              "student_1_1" day Hq) as (cs' & -> & Hflat & Hsame & _).
  eexists. split; [reflexivity |]. cbn [other_residents S1_school S2_school].
  split_and!; [| done | apply same_rooms_refl | done].
  simpl. rewrite Hflat. destruct (seeding_verdict "student_1_1" q); [| done].
  rewrite insert_app_r_alt by (fold n0; lia). fold n0.
  rewrite insert_app_r_alt by (fold n1; lia). by fold n1.
Qed.

Lemma seed_miss (day : Z) (i : nat) (t : town) (w : world) :
  everybody t !! i = None →
  seed day i t w
  = Returned t
      {| random_source := random_source w;
         stdout := stdout w
                   ++ ["Error - there are not "
                       ++ str (Z.of_nat i
                               - Z.of_nat (length (other_residents t))
                               - Z.of_nat (total_people (S1_school t)))
                       ++ " applicable people in school"] |}.
Proof.
  intros Hq. apply lookup_ge_None_1 in Hq.
  unfold everybody in Hq. rewrite !length_app in Hq.
  unfold seed. rewrite (total_people_length (S1_school t)).
  destruct (decide (i < length (other_residents t))%nat); [lia |].
  destruct (decide (i < length (other_residents t)
                        + length (all_people (S1_school t)))%nat); [lia |].
  unfold sicken_xth_person, mbind, script_bind.
  destruct (scan_classrooms_miss (classrooms (S2_school t))
              (Z.of_nat i - Z.of_nat (length (other_residents t))
               - Z.of_nat (length (all_people (S1_school t))))
              "student_1_1" day) as [p' ->].
  { right. unfold all_people in *. lia. }
  simpl. by destruct t.
Qed.

(** A sampled index addresses the people of the town in the order
    residents, school 1, school 2.  When it addresses a person, nothing is
    printed; a resident is always sickened, and a member of a school is
    sickened unless the name occurs in ["student_1_1"] or the member is
    sick.  When it addresses nobody, the town is what it was and the error
    message of school 2 is printed. *)
Theorem seed_by_index (day : Z) (i : nat) (t : town) (w : world) :
  match everybody t !! i with
  | Some q =>
      ∃ t',
        seed day i t w = Returned t' w
        ∧ everybody t'
          = (if bool_decide (i < length (other_residents t))%nat
                || seeding_verdict "student_1_1" q
             then <[i := sicken q day]> (everybody t) else everybody t)
  | None =>
      seed day i t w
      = Returned t
          {| random_source := random_source w;
             stdout := stdout w
                       ++ ["Error - there are not "
                           ++ str (Z.of_nat i
                                   - Z.of_nat (length (other_residents t))
                                   - Z.of_nat (total_people (S1_school t)))
                           ++ " applicable people in school"] |}
  end.
Proof.
  destruct (everybody t !! i) as [q|] eqn:Hq.
  - destruct (seed_hit day i q t w Hq) as (t' & Hrun & Hall & _).
    by exists t'.
  - by apply seed_miss.
Qed.

(** *** One day, and all the days, of a simulation *)

Lemma only_sickened_insert (day : Z) (l : list person) (k : nat)
    (q : person) :
  l !! k = Some q →
  Forall2 (only_sickened day) l (<[k := sicken q day]> l).
Proof.
  intros Hq. apply Forall2_same_length_lookup.
  split; [by rewrite length_insert |].
  intros j p p' Hp Hp'. rewrite list_lookup_insert in Hp'.
  case_decide as Hj.
  - destruct Hj as [<- _]. rewrite Hq in Hp. injection Hp as <-.
    injection Hp' as <-. by right.
  - rewrite Hp in Hp'. injection Hp' as <-. by left.
Qed.

Lemma only_sickened_refl (day : Z) (l : list person) :
  Forall2 (only_sickened day) l l.
Proof. apply Forall_Forall2_diag, Forall_forall. by left. Qed.

Lemma same_rooms_trans (cs cs' cs'' : list classroom) :
  same_rooms cs cs' → same_rooms cs' cs'' → same_rooms cs cs''.
Proof.
  unfold same_rooms. apply Forall2_trans.
  intros c c' c'' (? & ? & ? & ?) (? & ? & ? & ?). split_and!; congruence.
Qed.

Lemma same_rooms_tested (ok : Z → Prop) (cs cs' : list classroom) :
  same_rooms cs cs' → rooms_tested ok cs cs'.
Proof.
  intros Hs. eapply Forall2_impl; [exact Hs |].
  intros c c' (? & ? & ? & ?). split_and!; auto.
Qed.

Lemma rooms_tested_trans (ok1 ok2 ok : Z → Prop)
    (cs cs' cs'' : list classroom) :
  (∀ d, ok1 d → ok d) → (∀ d, ok2 d → ok d) →
  rooms_tested ok1 cs cs' → rooms_tested ok2 cs' cs'' →
  rooms_tested ok cs cs''.
Proof.
  intros H1 H2. unfold rooms_tested. apply Forall2_trans.
  intros c c' c'' (Hn & Hs & Ht & He) (Hn' & Hs' & Ht' & He').
  split_and!; try congruence.
  destruct He as [He | (He & d & Hd & Hok)],
           He' as [He' | (He' & d' & Hd' & Hok')].
  - left. congruence.
  - right. split; [congruence |]. exists d'. eauto.
  - right. split; [done |]. exists d. split; [congruence | eauto].
  - congruence.
Qed.

Lemma seed_only_sickens (day : Z) (i : nat) (t : town) (w : world) :
  ∃ t' w',
    seed day i t w = Returned t' w'
    ∧ Forall2 (only_sickened day) (everybody t) (everybody t')
    ∧ same_rooms (classrooms (S1_school t)) (classrooms (S1_school t'))
    ∧ same_rooms (classrooms (S2_school t)) (classrooms (S2_school t'))
    ∧ random_source w' = random_source w.
Proof.
  destruct (everybody t !! i) as [q|] eqn:Hq.
  - destruct (seed_hit day i q t w Hq) as (t' & Hrun & Hall & _ & H1 & H2).
    exists t', w. split_and!; try done. rewrite Hall.
    destruct (_ || _); [by apply only_sickened_insert
                       | apply only_sickened_refl].
  - eexists t, _. split; [by apply seed_miss |].
    split_and!; [apply only_sickened_refl | apply same_rooms_refl
                | apply same_rooms_refl | done].
Qed.

Lemma seed_all_only_sickens (day : Z) (new_list : list nat) (t : town)
    (w : world) :
  ∃ t' w',
    seed_all day new_list t w = Returned t' w'
    ∧ Forall2 (only_sickened day) (everybody t) (everybody t')
    ∧ same_rooms (classrooms (S1_school t)) (classrooms (S1_school t'))
    ∧ same_rooms (classrooms (S2_school t)) (classrooms (S2_school t'))
    ∧ random_source w' = random_source w.
Proof.
  revert t w. induction new_list as [|i rest IH]; intros t w.
  - exists t, w. split_and!; [done | apply only_sickened_refl
                             | apply same_rooms_refl | apply same_rooms_refl
                             | done].
  - destruct (seed_only_sickens day i t w)
      as (t1 & w1 & Hrun1 & Hp1 & Ha1 & Hb1 & Hr1).
    destruct (IH t1 w1) as (t2 & w2 & Hrun2 & Hp2 & Ha2 & Hb2 & Hr2).
    exists t2, w2. simpl. unfold mbind, script_bind. rewrite Hrun1.
    split_and!; [done | | by eapply same_rooms_trans
                | by eapply same_rooms_trans | congruence].
    eapply Forall2_trans; [| exact Hp1 | exact Hp2].
    intros ???. apply only_sickened_trans.
Qed.

Lemma all_people_update_days_sick (s : school) :
  all_people (school_update_days_sick s)
  = update_days_sick <$> all_people s.
Proof.
  unfold all_people, school_update_days_sick.
  cbn [classrooms with_classrooms].
  induction (classrooms s) as [|c cs IH]; [done |].
  csimpl. rewrite fmap_app. f_equal; [| exact IH].
  unfold people_of. simpl. by rewrite fmap_app.
Qed.

Lemma same_rooms_update_days_sick (s : school) :
  same_rooms (classrooms s) (classrooms (school_update_days_sick s)).
Proof.
  unfold same_rooms, school_update_days_sick. simpl.
  apply Forall2_fmap_r, Forall_Forall2_diag, Forall_forall.
  intros c _. simpl. by rewrite !length_fmap.
Qed.

Section DayFacts.
Context `{Settings}.

Lemma all_people_spread_virus (s : school) (day : Z) :
  Forall2 (only_sickened day) (all_people s)
          (all_people (spread_virus s day))
  ∧ same_rooms (classrooms s) (classrooms (spread_virus s day)).
Proof.
  pose proof (spread_virus_rooms s day) as Hrooms. split.
  - unfold all_people. apply Forall2_join, Forall2_fmap.
    eapply Forall2_impl; [exact Hrooms |].
    intros c c' (_ & _ & Hss & Hts). by apply Forall2_app.
  - eapply Forall2_impl; [exact Hrooms |].
    intros c c' (? & ? & Hss & Hts). split_and!; try done.
    + symmetry. by eapply Forall2_length.
    + symmetry. by eapply Forall2_length.
Qed.

Lemma rooms_tested_school_test (s : school) (day : Z) :
  rooms_tested (λ d, d = day) (classrooms s) (classrooms (school_test s day)).
Proof.
  unfold rooms_tested, school_test. simpl.
  apply Forall2_fmap_r, Forall_Forall2_diag, Forall_forall.
  intros c _. simpl. split_and!; try done.
  destruct (earliest_positive_test_day c) as [t|].
  - left. apply foldl_test_student_set.
  - rewrite foldl_test_student_unset.
    destruct (existsb tests_positive (students c)); [| by left].
    right. split; [done |]. by exists day.
Qed.

Lemma simulate_day_returns (day : Z) (new_list : list nat) (t : town)
    (w : world) :
  ∃ t' w',
    simulate_day day new_list t w = Returned t' w'
    ∧ Forall2 (λ p p', only_sickened day (update_days_sick p) p')
              (everybody t) (everybody t')
    ∧ rooms_tested (λ d, d = day ∧ (day `mod` 7 = 0 ∨ day `mod` 7 = 2))
                   (classrooms (S1_school t)) (classrooms (S1_school t'))
    ∧ same_rooms (classrooms (S2_school t)) (classrooms (S2_school t'))
    ∧ random_source w' = random_source w.
Proof.
  unfold simulate_day.
  set (t0 := {| other_residents := update_days_sick <$> other_residents t;
                S1_school := school_update_days_sick (S1_school t);
                S2_school := school_update_days_sick (S2_school t) |}).
  destruct (seed_all_only_sickens day new_list t0 w)
    as (t1 & w1 & Hrun & Hp & Ha & Hb & Hr).
  unfold mbind, script_bind. rewrite Hrun.
  eexists _, _. split; [reflexivity |].
  destruct (all_people_spread_virus (S1_school t1) day) as [Hp1 Hr1].
  destruct (all_people_spread_virus (S2_school t1) day) as [Hp2 Hr2].
  split_and!; [| | | done].
  - assert (everybody t0 = update_days_sick <$> everybody t) as Ht0.
    { unfold everybody, t0. simpl.
      by rewrite !fmap_app, !all_people_update_days_sick. }
    match goal with
    | |- Forall2 _ _ ?l' =>
        change (Forall2 (only_sickened day ∘ update_days_sick)
                        (everybody t) l')
    end.
    apply Forall2_fmap_l. rewrite <- Ht0.
    eapply Forall2_trans; [| exact Hp |].
    { intros ???. apply only_sickened_trans. }
    unfold everybody. cbn [other_residents S1_school S2_school].
    apply Forall2_app; [apply only_sickened_refl |].
    apply Forall2_app; [| exact Hp2].
    destruct (bool_decide (day `mod` 7 ∈ [0; 2])); [| exact Hp1].
    by rewrite (proj1 (school_test_members _ _)).
  - cbn [S1_school].
    assert (same_rooms (classrooms (S1_school t))
                       (classrooms (spread_virus (S1_school t1) day)))
      as Hsame.
    { eapply same_rooms_trans; [apply same_rooms_update_days_sick |].
      eapply same_rooms_trans; [exact Ha | exact Hr1]. }
    destruct (bool_decide (day `mod` 7 ∈ [0; 2])) eqn:Htest.
    + eapply rooms_tested_trans;
        [| | apply (same_rooms_tested (λ _, False)), Hsame
         | apply rooms_tested_school_test]; [done |].
      intros d ->. split; [done |].
      apply bool_decide_eq_true in Htest. set_unfold. lia.
    + by apply same_rooms_tested.
  - cbn [S2_school].
    eapply same_rooms_trans; [apply same_rooms_update_days_sick |].
    eapply same_rooms_trans; [exact Hb | exact Hr2].
Qed.
End DayFacts.

Lemma aged_to_next_day (day : Z) (p p' : person) :
  aged_to (day - 1) p → only_sickened day (update_days_sick p) p' →
  aged_to day p'.
Proof.
  unfold aged_to, only_sickened, update_days_sick, sicken.
  intros [Hv | [Hv Hd]] [-> | ->];
    repeat (case_decide; simpl in * ); try lia.
Qed.

Lemma Forall_aged_to_next_day (day : Z) (l l' : list person) :
  Forall (aged_to (day - 1)) l →
  Forall2 (λ p p', only_sickened day (update_days_sick p) p') l l' →
  Forall (aged_to day) l'.
Proof.
  intros Hl Hll'. induction Hll' as [|p p' l l' Hp _ IH]; [done |].
  apply Forall_cons in Hl as [Hp0 Hl].
  constructor; [by eapply aged_to_next_day | by apply IH].
Qed.

Section SimulationFacts.
Context `{Settings}.

(** One simulated day never raises.  It takes every person of the town
    through [update_days_sick] and then, at most, through [sicken] on that
    day; it draws no random number of its own. *)
Theorem simulate_day_on_each_person (day : Z) (new_list : list nat)
    (t : town) (w : world) :
  ∃ t' w',
    simulate_day day new_list t w = Returned t' w'
    ∧ Forall2 (λ p p', p' = update_days_sick p
                       ∨ p' = sicken (update_days_sick p) day)
              (everybody t) (everybody t')
    ∧ random_source w' = random_source w.
Proof.
  destruct (simulate_day_returns day new_list t w)
    as (t' & w' & Hrun & Hp & _ & _ & Hr).
  exists t', w'. by split_and!.
Qed.

Lemma simulate_days_returns (new_lists : Z → list nat) (days : list Z)
    (t : town) (w : world) :
  ∃ t' w',
    simulate_days new_lists days t w = Returned t' w'
    ∧ rooms_tested (λ d, d ∈ days ∧ (d `mod` 7 = 0 ∨ d `mod` 7 = 2))
                   (classrooms (S1_school t)) (classrooms (S1_school t'))
    ∧ same_rooms (classrooms (S2_school t)) (classrooms (S2_school t')).
Proof.
  revert t w. induction days as [|day days IH]; intros t w.
  - exists t, w. split_and!; [done | | apply same_rooms_refl].
    apply same_rooms_tested, same_rooms_refl.
  - destruct (simulate_day_returns day (new_lists day) t w)
      as (t1 & w1 & Hrun1 & _ & Ha1 & Hb1 & _).
    destruct (IH t1 w1) as (t2 & w2 & Hrun2 & Ha2 & Hb2).
    exists t2, w2. simpl. unfold mbind, script_bind. rewrite Hrun1.
    split_and!; [done | | by eapply same_rooms_trans].
    eapply rooms_tested_trans; [| | exact Ha1 | exact Ha2].
    + intros d [-> Hd]. split; [left | done].
    + intros d [Hin Hd]. split; [by right | done].
Qed.

Lemma simulate_days_ages (new_lists : Z → list nat) (n : nat) (a : Z)
    (t : town) (w : world) :
  Forall (aged_to (a - 1)) (everybody t) →
  ∃ t' w',
    simulate_days new_lists (seqZ a (Z.of_nat n)) t w = Returned t' w'
    ∧ Forall (aged_to (a + Z.of_nat n - 1)) (everybody t').
Proof.
  revert a t w. induction n as [|n IH]; intros a t w Hages.
  - exists t, w. split; [done |]. by rewrite Z.add_0_r.
  - rewrite seqZ_cons by lia.
    destruct (simulate_day_returns a (new_lists a) t w)
      as (t1 & w1 & Hrun1 & Hp1 & _).
    destruct (IH (Z.succ a) t1 w1) as (t2 & w2 & Hrun2 & Hages2).
    { replace (Z.succ a - 1) with a by lia.
      by eapply Forall_aged_to_next_day. }
    exists t2, w2. simpl. unfold mbind, script_bind. rewrite Hrun1.
    replace (Z.pred (Z.of_nat (S n))) with (Z.of_nat n) by lia.
    split; [done |].
    by replace (a + Z.of_nat (S n) - 1) with (Z.succ a + Z.of_nat n - 1)
      by lia.
Qed.

(** From a town in which everybody is healthy the loop over the days
    returns, whatever is sampled, and at its end everybody is healthy or
    has a timer that counts the days from [day_infected] to the last day,
    [N_days + 2*first_contagious_day - 1]. *)
Theorem simulate_keeps_timers (new_lists : Z → list nat) (t : town)
    (w : world) :
  Forall (λ p, days_with_virus p = -1) (everybody t) →
  ∃ t' w',
    simulate new_lists t w = Returned t' w'
    ∧ Forall (λ p, days_with_virus p = -1
                   ∨ (0 <= days_with_virus p
                      ∧ day_infected p + days_with_virus p
                        = N_days + 2 * first_contagious_day - 1))
             (everybody t').
Proof.
  intros Hhealthy. unfold simulate.
  set (last := N_days + 2 * first_contagious_day).
  assert (seqZ 0 last = seqZ 0 (Z.of_nat (Z.to_nat last))) as ->
    by (unfold seqZ; by rewrite Nat2Z.id).
  destruct (simulate_days_ages new_lists (Z.to_nat last) 0 t w)
    as (t' & w' & Hrun & Hages).
  { eapply Forall_impl; [exact Hhealthy |]. intros p Hp. by left. }
  exists t', w'. split; [exact Hrun |].
  destruct (decide (0 < last)) as [Hpos | Hneg].
  - eapply Forall_impl; [exact Hages |]. intros p Hp.
    unfold aged_to in Hp. destruct Hp as [? | [? ?]]; [by left | right].
    split; [done | lia].
  - revert Hrun. replace (Z.to_nat last) with 0%nat by lia.
    intros [= <- _].
    eapply Forall_impl; [exact Hhealthy |]. intros p Hp. by left.
Qed.

(** Whatever is sampled, the loop over the days records no test day in
    school 2, and in school 1 it only adds test days to classrooms without
    one, days of the loop with [day % 7] equal to 0 or 2; the classrooms of
    both schools keep their numbers and sizes. *)
Theorem simulate_tests_school_1_only (new_lists : Z → list nat) (t : town)
    (w : world) :
  ∃ t' w',
    simulate new_lists t w = Returned t' w'
    ∧ same_rooms (classrooms (S2_school t)) (classrooms (S2_school t'))
    ∧ rooms_tested
        (λ d, 0 <= d < N_days + 2 * first_contagious_day
              ∧ (d `mod` 7 = 0 ∨ d `mod` 7 = 2))
        (classrooms (S1_school t)) (classrooms (S1_school t')).
Proof.
  destruct (simulate_days_returns new_lists
              (seqZ 0 (N_days + 2 * first_contagious_day)) t w)
    as (t' & w' & Hrun & Ha & Hb).
  exists t', w'. split_and!; [exact Hrun | exact Hb |].
  eapply rooms_tested_trans;
    [| | exact Ha | apply (same_rooms_tested (λ _, False)), same_rooms_refl];
    [| done].
  intros d [Hd ?]. apply elem_of_seqZ in Hd. split; [lia | done].
Qed.
End SimulationFacts.

(** *** The town at the start of a simulation *)

Lemma assign_students_related (ss : list person) (fams : list Z) :
  (length ss <= length fams)%nat →
  Forall2 (λ p p', ∃ fam, p' = assign_to_family p fam)
          ss (zip_with assign_to_family ss fams).
Proof.
  revert fams. induction ss as [|p ss IH]; intros fams Hlen; [constructor |].
  destruct fams as [|fam fams]; simpl in *; [lia |].
  constructor; [by exists fam | apply IH; lia].
Qed.

Lemma assign_classrooms_rooms (cs : list classroom) (fams : list Z)
    (size : nat) (w : world) :
  Forall (λ c, length (students c) = size) cs →
  (length cs * size <= length fams)%nat →
  ∃ cs',
    assign_classrooms cs fams size w = Returned cs' w
    ∧ mjoin (students <$> cs')
      = zip_with assign_to_family (mjoin (students <$> cs)) fams
    ∧ Forall2 (λ c c',
                 number c' = number c
                 ∧ teachers c' = teachers c
                 ∧ earliest_positive_test_day c'
                   = earliest_positive_test_day c
                 ∧ Forall2 (λ p p', ∃ fam, p' = assign_to_family p fam)
                           (students c) (students c')) cs cs'.
Proof.
  intros Hcs. revert fams.
  induction Hcs as [|c cs Hc _ IH]; intros fams Hlen.
  - exists []. by split_and!.
  - simpl in Hlen.
    destruct (IH (drop size fams)) as (cs' & Hrec & Hjoin & Hrooms).
    { rewrite length_drop. lia. }
    exists (with_students c (zip_with assign_to_family (students c)
                               (take size fams)) :: cs').
    assert (length (take size fams) = size) as Htake
      by (rewrite length_take; lia).
    split_and!.
    + simpl. unfold classroom_assign_to_families, mbind, script_bind.
      rewrite assign_students_returns by lia.
      unfold mret at 1, script_ret. by rewrite Hrec.
    + rewrite !join_students_cons, Hjoin. simpl.
      rewrite <- (take_drop size fams) at 3.
      symmetry. apply zip_with_app. lia.
    + constructor; [| exact Hrooms]. simpl. split_and!; try done.
      apply assign_students_related. lia.
Qed.

Section NewTown.
Context `{Settings}.

Lemma assign_to_random_families_built (s : school) (w : world) :
  Forall (λ c, length (students c) = class_size s) (classrooms s) →
  (1 <= students_per_family)%Q →
  1 <= num_families_of (total_students s) →
  ∃ s' w' fams,
    assign_to_random_families s w = Returned s' w'
    ∧ stdout w' = stdout w
    ∧ Forall (λ fam, 0 <= fam) fams
    ∧ all_students s' = zip_with assign_to_family (all_students s) fams
    ∧ (length (all_students s) <= length fams)%nat
    ∧ Forall2 (λ c c',
                 number c' = number c
                 ∧ teachers c' = teachers c
                 ∧ earliest_positive_test_day c'
                   = earliest_positive_test_day c
                 ∧ Forall2 (λ p p', ∃ fam, p' = assign_to_family p fam)
                           (students c) (students c'))
              (classrooms s) (classrooms s').
Proof.
  intros Hfull Hspf Hfam.
  set (nf := num_families_of (total_students s)) in *.
  destruct (append_random_returns
              (Z.to_nat (Z.of_nat (total_students s) - nf)) nf
              (seqZ 0 nf) w (or_introl Hfam))
    as (draws & w1 & Hdraw & Hlen & Hrange & Hout1).
  destruct (shuffle_Permutation (seqZ 0 nf ++ draws) w1)
    as (fams & w2 & Hshuffle & Hperm & Hout2).
  assert (length (all_students s) <= length fams)%nat as Hfams.
  { rewrite Hperm, length_app, length_seqZ, Hlen, <- total_students_length.
    lia. }
  destruct (assign_classrooms_rooms (classrooms s) fams (class_size s) w2
              Hfull) as (cs' & Hassign & Hjoin & Hrooms).
  { rewrite <- (all_students_full _ _ Hfull). exact Hfams. }
  exists (with_classrooms s cs'), w2, fams. split_and!.
  - unfold assign_to_random_families.
    destruct (Qlt_le_dec students_per_family 1) as [Hlt | _].
    { exfalso. exact (Qlt_not_le _ _ Hlt Hspf). }
    fold nf. unfold mbind, script_bind.
    by rewrite Hdraw, Hshuffle, Hassign.
  - congruence.
  - rewrite Hperm. apply Forall_app. split.
    + apply Forall_forall. intros fam Hin%elem_of_seqZ. lia.
    + eapply Forall_impl; [exact Hrange |]. intros fam ?. simpl in *. lia.
  - exact Hjoin.
  - exact Hfams.
  - exact Hrooms.
Qed.

Lemma assign_to_random_families_ready (s : school) (w : world) :
  Forall (λ c, length (students c) = class_size s) (classrooms s) →
  (1 <= students_per_family)%Q →
  1 <= num_families_of (total_students s) →
  ∃ s' w' c cs k ks,
    assign_to_random_families s w = Returned s' w'
    ∧ stdout w' = stdout w
    ∧ classrooms s' = c :: cs
    ∧ students c = k :: ks
    ∧ Forall (λ p, ∃ fam, family_unit p = Some fam ∧ 0 <= fam)
             (all_students s')
    ∧ Forall2 (λ p p', days_with_virus p' = days_with_virus p)
              (all_people s) (all_people s').
Proof.
  intros Hfull Hspf Hfam.
  destruct (assign_to_random_families_built s w Hfull Hspf Hfam)
    as (s' & w' & fams & Hrun & Hout & Hpos & Hall & Hlen & Hrooms).
  assert (0 < length (mjoin (students <$> classrooms s)))%nat as Htot.
  { destruct (total_students s) as [|n] eqn:Hn.
    - rewrite num_families_of_0 in Hfam. lia.
    - rewrite total_students_length in Hn. unfold all_students in Hn. lia. }
  assert (Forall (λ p, ∃ fam, family_unit p = Some fam ∧ 0 <= fam)
                 (all_students s')) as Hunits.
  { rewrite Hall. clear -Hpos Hlen.
    revert Hlen Hpos. generalize (all_students s). intros ss.
    revert ss. induction fams as [|fam fams IH]; intros [|p ss] Hlen Hpos;
      simpl in *; try done; try lia.
    apply Forall_cons in Hpos as [? ?].
    constructor; [by exists fam | apply IH; [lia | done]]. }
  assert (Forall2 (λ p p', days_with_virus p' = days_with_virus p)
                  (all_people s) (all_people s')) as Htimers.
  { unfold all_people. apply Forall2_join, Forall2_fmap.
    eapply Forall2_impl; [exact Hrooms |].
    intros c1 c1' (_ & Hteach & _ & Hss). unfold people_of. rewrite Hteach.
    apply Forall2_app.
    - eapply Forall2_impl; [exact Hss |]. by intros p p' [fam ->].
    - apply Forall_Forall2_diag, Forall_forall. by intros. }
  rewrite (all_students_full _ _ Hfull) in Htot.
  remember (classrooms s) as cs0 eqn:Hcs0.
  remember (classrooms s') as cs' eqn:Hcs'.
  destruct Hrooms as [|c0 c cs0 cs' (_ & _ & _ & Hc) _]; [simpl in Htot; lia |].
  apply Forall_cons in Hfull as [Hc0 _].
  destruct (students c) as [|k ks] eqn:Hk.
  { apply Forall2_length in Hc. simpl in Hc. rewrite Hc in Hc0.
    rewrite <- Hc0 in Htot. lia. }
  exists s', w', c, cs', k, ks. by split_and!.
Qed.

Lemma assign_kid_to_family_returns (s : school) (fam : Z) (w : world)
    (c : classroom) (cs : list classroom) (k : person) (ks : list person) :
  classrooms s = c :: cs →
  students c = k :: ks →
  ∃ s' c',
    assign_kid_to_family s fam w = Returned s' w
    ∧ classrooms s' !! 0%nat = Some c'
    ∧ students c' !! 0%nat = Some (assign_to_family k fam)
    ∧ all_students s' = assign_to_family k fam :: tail (all_students s)
    ∧ Forall2 (λ p p', days_with_virus p' = days_with_virus p)
              (all_people s) (all_people s').
Proof.
  intros Hcs Hk.
  exists (with_classrooms s
            (with_students c (assign_to_family k fam :: ks) :: cs)),
         (with_students c (assign_to_family k fam :: ks)).
  split_and!.
  - unfold assign_kid_to_family, student_0_0, classroom_0, mbind,
      script_bind. rewrite Hcs. simpl. by rewrite Hk.
  - done.
  - done.
  - unfold all_students. rewrite Hcs. simpl. by rewrite Hk.
  - unfold all_people. rewrite Hcs. simpl. unfold people_of at 1 3.
    simpl. rewrite Hk. simpl. constructor; [done |].
    apply Forall_Forall2_diag, Forall_forall. by intros.
Qed.
End NewTown.

Lemma same_timers_healthy (l l' : list person) :
  Forall2 (λ p p', days_with_virus p' = days_with_virus p) l l' →
  Forall (λ p, days_with_virus p = -1) l →
  Forall (λ p, days_with_virus p = -1) l'.
Proof.
  induction 1 as [|p p' l l' Hp _ IH]; [done |].
  intros [Hp0 Hl]%Forall_cons. constructor; [congruence | by apply IH].
Qed.

Section NewTownFacts.
Context `{Settings}.

(** With enough ages for the classrooms of each school,
    [students_per_family >= 1], at least one family in each school and a
    population that covers the two schools, the town is built whatever the
    generator draws, and nothing is printed.  The town has [population]
    people, all healthy.  In each school the kid of interest,
    [classrooms[0].students[0]], is the first of the students and has the
    family unit -1, or -2 in school 2; every other student of the school
    has a family unit of 0 or more. *)
Theorem new_town_returns (w : world) :
  (S1_classes_in_school <= S1_class_size)%nat →
  (S2_classes_in_school <= S2_class_size)%nat →
  (1 <= students_per_family)%Q →
  1 <= num_families_of (S1_classes_in_school * S1_class_size) →
  1 <= num_families_of (S2_classes_in_school * S2_class_size) →
  Z.of_nat (S1_classes_in_school * (S1_class_size + S1_teachers)
            + S2_classes_in_school * (S2_class_size + S2_teachers))
  <= population →
  ∃ t w' kid1 others1 kid2 others2,
    new_town w = Returned t w'
    ∧ stdout w' = stdout w
    ∧ Z.of_nat (length (everybody t)) = population
    ∧ Forall (λ p, days_with_virus p = -1) (everybody t)
    ∧ student_0_0 (S1_school t) w = Returned kid1 w
    ∧ all_students (S1_school t) = kid1 :: others1
    ∧ family_unit kid1 = Some (-1)
    ∧ Forall (λ p, ∃ fam, family_unit p = Some fam ∧ 0 <= fam) others1
    ∧ student_0_0 (S2_school t) w = Returned kid2 w
    ∧ all_students (S2_school t) = kid2 :: others2
    ∧ family_unit kid2 = Some (-2)
    ∧ Forall (λ p, ∃ fam, family_unit p = Some fam ∧ 0 <= fam) others2.
Proof.
  intros Hages1 Hages2 Hspf Hnf1 Hnf2 Hpop.
  destruct (school_init_built "S1_school" S1_classes_in_school S1_class_size
              (replicate S1_class_size 5) S1_teachers w)
    as (s1 & Hs1 & _ & Hsize1 & _ & Hshape1 & Hfresh1 & Hstud1 & Hpeople1).
  { by rewrite length_replicate. }
  destruct (school_init_built "S2_school" S2_classes_in_school S2_class_size
              (replicate S2_class_size 3) S2_teachers w)
    as (s2 & Hs2 & _ & Hsize2 & _ & Hshape2 & Hfresh2 & Hstud2 & Hpeople2).
  { by rewrite length_replicate. }
  destruct (assign_to_random_families_ready s1 w)
    as (s1a & w1 & c1 & cs1 & k1 & ks1 & Hrun1 & Hout1 & Hcs1 & Hk1 & Hfam1
        & Htimers1).
  { rewrite Hsize1. eapply Forall_impl; [exact Hshape1 |]. by intros c (? & _). }
  { exact Hspf. }
  { by rewrite Hstud1. }
  destruct (assign_to_random_families_ready s2 w1)
    as (s2a & w2 & c2 & cs2 & k2 & ks2 & Hrun2 & Hout2 & Hcs2 & Hk2 & Hfam2
        & Htimers2).
  { rewrite Hsize2. eapply Forall_impl; [exact Hshape2 |]. by intros c (? & _). }
  { exact Hspf. }
  { by rewrite Hstud2. }
  destruct (assign_kid_to_family_returns s1a (-1) w2 c1 cs1 k1 ks1 Hcs1 Hk1)
    as (s1b & c1' & Hkid1 & Hroom1 & Hfirst1 & Hall1 & Hsame1).
  destruct (assign_kid_to_family_returns s2a (-2) w2 c2 cs2 k2 ks2 Hcs2 Hk2)
    as (s2b & c2' & Hkid2 & Hroom2 & Hfirst2 & Hall2 & Hsame2).
  set (residents :=
         new_other_residents (population - Z.of_nat (total_people s1)
                              - Z.of_nat (total_people s2))).
  exists {| other_residents := residents; S1_school := s1b;
            S2_school := s2b |}, w2,
         (assign_to_family k1 (-1)), (tail (all_students s1a)),
         (assign_to_family k2 (-2)), (tail (all_students s2a)).
  assert (∀ l : list person,
            Forall (λ p, ∃ fam, family_unit p = Some fam ∧ 0 <= fam) l →
            Forall (λ p, ∃ fam, family_unit p = Some fam ∧ 0 <= fam) (tail l))
    as Htail.
  { intros [|p l] Hl; [done |]. by apply Forall_cons in Hl as [_ ?]. }
  split_and!.
  - unfold new_town, new_S1_school, new_S2_school, mbind, script_bind.
    rewrite Hs1, Hs2, Hrun1, Hrun2, Hkid1, Hkid2. done.
  - congruence.
  - unfold everybody. cbn [other_residents S1_school S2_school].
    rewrite !length_app.
    rewrite <- (Forall2_length _ _ _ Hsame1), <- (Forall2_length _ _ _ Htimers1).
    rewrite <- (Forall2_length _ _ _ Hsame2), <- (Forall2_length _ _ _ Htimers2).
    unfold residents, new_other_residents.
    rewrite length_fmap, length_seqZ, <- !total_people_length.
    rewrite Hpeople1, Hpeople2 in *. lia.
  - unfold everybody. cbn [other_residents S1_school S2_school].
    rewrite !Forall_app. split_and!.
    + unfold residents, new_other_residents.
      apply Forall_fmap, Forall_forall. by intros.
    + apply (same_timers_healthy _ _ Hsame1),
        (same_timers_healthy _ _ Htimers1).
      eapply Forall_impl; [exact Hfresh1 |]. by intros p (? & _).
    + apply (same_timers_healthy _ _ Hsame2),
        (same_timers_healthy _ _ Htimers2).
      eapply Forall_impl; [exact Hfresh2 |]. by intros p (? & _).
  - unfold student_0_0, classroom_0, mbind, script_bind.
    cbn [S1_school]. rewrite Hroom1. unfold mret at 1, script_ret.
    by rewrite Hfirst1.
  - exact Hall1.
  - done.
  - by apply Htail.
  - unfold student_0_0, classroom_0, mbind, script_bind.
    cbn [S2_school]. rewrite Hroom2. unfold mret at 1, script_ret.
    by rewrite Hfirst2.
  - exact Hall2.
  - done.
  - by apply Htail.
Qed.
End NewTownFacts.

Lemma new_town_returns_witness :
  ∃ t w',
    @new_town script_settings quiet_world = Returned t w'
    ∧ Z.of_nat (length (everybody t)) = @population script_settings.
Proof.
  destruct (@new_town_returns script_settings quiet_world)
    as (t & w' & _ & _ & _ & _ & Hrun & _ & Hlen & _).
  - vm_compute. lia.
  - vm_compute. lia.
  - unfold Qle. simpl. lia.
  - vm_compute. discriminate.
  - vm_compute. discriminate.
  - vm_compute. discriminate.
  - exists t, w'. split; [exact Hrun | exact Hlen].
Defined.

(** *** The tallies at the end of a simulation *)

Section TallyFacts.
Context `{Settings}.

(** When both kids of interest exist, the final statements return; they
    count the kid of each school as infected exactly when its
    [day_infected] is at most [N_days], the aggregate when either is, and
    each infection counted goes into exactly one warning tier: tallies that
    added up before add up after. *)
Theorem final_results_add_up (t : town) (tl : tallies) (w : world)
    (c1 c2 : classroom) (kid1 kid2 : person) :
  classrooms (S1_school t) !! 0%nat = Some c1 →
  students c1 !! 0%nat = Some kid1 →
  classrooms (S2_school t) !! 0%nat = Some c2 →
  students c2 !! 0%nat = Some kid2 →
  ∃ tl',
    final_results t tl w = Returned tl' w
    ∧ S1_infections tl'
      = S1_infections tl + (if decide (day_infected kid1 <= N_days)
                            then 1 else 0)
    ∧ S2_infections tl'
      = S2_infections tl + (if decide (day_infected kid2 <= N_days)
                            then 1 else 0)
    ∧ Agg_infections tl'
      = Agg_infections tl
        + (if decide (day_infected kid1 <= N_days
                      ∨ day_infected kid2 <= N_days) then 1 else 0)
    ∧ (tallies_add_up tl → tallies_add_up tl').
Proof.
  intros Hc1 Hk1 Hc2 Hk2.
  unfold final_results, student_0_0, classroom_0, mbind, script_bind.
  rewrite Hc1, Hc2. unfold mret at 1 3, script_ret. rewrite Hk1, Hk2.
  unfold mret, script_ret.
  eexists. split; [reflexivity |].
  unfold tallies_add_up, agg_warnings, S1_warnings, determine_agg_warnings.
  destruct (earliest_positive_test_day c1) as [T|];
    repeat case_decide; simpl; split_and!; try lia; intros [? ?];
    split; lia.
Qed.

(** Without a first student in the first classroom of school 1, the final
    statements raise [IndexError]. *)
Theorem final_results_needs_kid (t : town) (tl : tallies) (w : world) :
  (∀ c, classrooms (S1_school t) !! 0%nat = Some c → students c = []) →
  final_results t tl w = Raised IndexError.
Proof.
  intros Hnone.
  unfold final_results, student_0_0, classroom_0, mbind, script_bind.
  destruct (classrooms (S1_school t) !! 0%nat) as [c|] eqn:Hc; [| done].
  unfold mret at 1, script_ret. by rewrite (Hnone c eq_refl).
Qed.
End TallyFacts.

(** *** The further properties at concrete inputs *)

Lemma timer_after_days_witness :
  -1 <= days_with_virus (sicken (person_init "student_1_0" 5) 4)
  ∧ days_with_virus
      (Nat.iter 3 update_days_sick (sicken (person_init "student_1_0" 5) 4))
    = 3.
Proof.
  split; [simpl; lia |].
  exact (proj1 (timer_after_days (sicken (person_init "student_1_0" 5) 4) 3
                  ltac:(simpl; lia))).
Defined.

Lemma sicken_xth_person_in_range_witness :
  all_people two_by_two_school !! 1%nat = Some (person_init "student_1_1" 5)
  ∧ ∃ s',
      sicken_xth_person two_by_two_school 1 "student_1_1" 0 quiet_world
      = Returned (Some false, s') quiet_world.
Proof.
  split; [reflexivity |].
  destruct (sicken_xth_person_in_range two_by_two_school 1
              (person_init "student_1_1" 5) "student_1_1" 0 quiet_world
              eq_refl) as (s' & Hrun & _).
  exists s'. exact Hrun.
Defined.

Lemma sicken_xth_person_out_of_range_witness :
  (6 < 0 ∨ Z.of_nat (total_people two_by_two_school) <= 6)
  ∧ sicken_xth_person two_by_two_school 6 "student_1_1" 0 quiet_world
    = Returned (None, two_by_two_school)
        {| random_source := random_source quiet_world;
           stdout := ["Error - there are not 6 applicable people in school"]
        |}.
Proof.
  split; [right; vm_compute; discriminate |].
  apply (sicken_xth_person_out_of_range two_by_two_school 6).
  right. vm_compute. discriminate.
Defined.

Lemma weekday_spread_in_classroom_witness :
  ∃ c',
    classrooms (@spread_virus script_settings weekend_school 14) !! 0%nat
    = Some c'
    ∧ teachers c' = [sicken (person_init "teacher_1_0" 30) 14].
Proof.
  edestruct (@weekday_spread_in_classroom script_settings weekend_school 14
               0%nat) as (c' & Hc' & _ & Hteachers).
  - intros [Hday | Hday]; vm_compute in Hday; discriminate Hday.
  - reflexivity.
  - reflexivity.
  - reflexivity.
  - exists c'. split; [exact Hc' | exact Hteachers].
Defined.

Lemma spread_virus_keeps_teachers_witness :
  (12 `mod` 7 = 5 ∨ 12 `mod` 7 = 6)
  ∧ ∃ c',
      classrooms (@spread_virus script_settings weekend_school 12) !! 0%nat
      = Some c'
      ∧ teachers c' = [person_init "teacher_1_0" 30].
Proof.
  split; [left; reflexivity |].
  edestruct (@spread_virus_keeps_teachers script_settings weekend_school 12
               0%nat) as (c' & Hc' & Hteachers).
  - reflexivity.
  - left. left. reflexivity.
  - exists c'. split; [exact Hc' | exact Hteachers].
Defined.

Lemma offline_after_positive_test_witness :
  earliest_positive_test_day positive_classroom = None
  ∧ (@offline script_settings
       (@classroom_test script_settings positive_classroom 7) 9 = true
     ↔ 7 + @test_lag script_settings < 9).
Proof.
  split; [reflexivity |].
  apply (@offline_after_positive_test script_settings positive_classroom 7 9).
  - reflexivity.
  - eexists. split; [apply list_elem_of_here | reflexivity].
Defined.

Lemma online_after_negative_test_witness :
  earliest_positive_test_day teacher_case = None
  ∧ earliest_positive_test_day
      (@classroom_test script_settings teacher_case 2) = None
  ∧ @offline script_settings
      (@classroom_test script_settings teacher_case 2) 9 = false.
Proof.
  split; [reflexivity |].
  apply (@online_after_negative_test script_settings teacher_case 2 9).
  - reflexivity.
  - intros stdt Hin. apply list_elem_of_In in Hin.
    destruct Hin as [<- | []]. reflexivity.
Defined.

Lemma simulate_keeps_timers_witness :
  Forall (λ p, days_with_virus p = -1) (everybody small_town)
  ∧ ∃ t' w',
      @simulate script_settings (λ _, [0%nat]) small_town quiet_world
      = Returned t' w'
      ∧ Forall (λ p, days_with_virus p = -1
                     ∨ (0 <= days_with_virus p
                        ∧ day_infected p + days_with_virus p = 95))
               (everybody t').
Proof.
  assert (Forall (λ p, days_with_virus p = -1) (everybody small_town))
    as Hhealthy by (repeat constructor).
  split; [exact Hhealthy |].
  exact (@simulate_keeps_timers script_settings (λ _, [0%nat]) small_town
           quiet_world Hhealthy).
Defined.

Lemma final_results_add_up_witness :
  ∃ tl',
    @final_results script_settings both_infected_town no_tallies quiet_world
    = Returned tl' quiet_world
    ∧ S1_infections tl' = 1
    ∧ S2_infections tl' = 1
    ∧ Agg_infections tl' = 1.
Proof.
  edestruct (@final_results_add_up script_settings both_infected_town
               no_tallies quiet_world)
    as (tl' & Hrun & H1 & H2 & H3 & _); [reflexivity .. |].
  exists tl'. split; [exact Hrun |].
  split; [exact H1 |]. split; [exact H2 | exact H3].
Defined.

Lemma final_results_needs_kid_witness :
  classrooms (S1_school town_without_kid) = []
  ∧ @final_results script_settings town_without_kid no_tallies quiet_world
    = Raised IndexError.
Proof.
  split; [reflexivity |].
  apply (@final_results_needs_kid script_settings town_without_kid).
  intros c Hc. discriminate Hc.
Defined.
